(** * jira-html-report: field-value extraction, tabulation and group-by counts

    A shallow embedding of [JiraReport.generate_dataframes_by_jql] and
    [JiraReport.generate_groupby_count_dataframe]
    (src/jira-report/jira_report.py), with the nested helper [extract_value].

    Python values coming out of the JSON answer of the tracker are an
    inductive type; exceptions are an error monad; a [dict] is an association
    list in insertion order (the order decides which exception is raised
    first and the order of the columns of the data frame). *)

From Stdlib Require Import ZArith Floats.
From stdpp Require Import base option list strings gmap.

Set Warnings "-register-all".
Open Scope string_scope.

(** ** Python values *)

Module Py.

(** The values [json_result=True] can hand to [extract_value]: the JSON
    types as Python decodes them. A [dict] keeps its items in insertion
    order. *)
Inductive value : Type :=
  | None_
  | Bool (b : bool)
  | Int (z : Z)
  | Float (f : float)
  | Str (s : string)
  | List (items : list value)
  | Dict (items : list (string * value)).

(** [type(v)], an exact class, and the one subclass relation among them. *)
Inductive type_ : Type :=
  | NoneType | bool_ | int_ | float_ | str_ | list_ | dict_.

#[global] Instance type_eq_dec : EqDecision type_.
Proof. solve_decision. Defined.

Definition type (v : value) : type_ :=
  match v with
  | None_ => NoneType
  | Bool _ => bool_
  | Int _ => int_
  | Float _ => float_
  | Str _ => str_
  | List _ => list_
  | Dict _ => dict_
  end.

(** [issubclass(a, b)]: [bool] is a subclass of [int]. *)
Definition issubclass (a b : type_) : bool :=
  bool_decide (a = b) || (bool_decide (a = bool_) && bool_decide (b = int_)).

Definition isinstance (v : value) (t : type_) : bool := issubclass (type v) t.

(** [t in [t1, ..., tn]] on classes: identity of the class object. *)
Definition type_in (t : type_) (ts : list type_) : bool :=
  existsb (fun u => bool_decide (t = u)) ts.

(** [bool(v)], the truth value an [if]/[elif] tests. *)
Definition truthy (v : value) : bool :=
  match v with
  | None_ => false
  | Bool b => b
  | Int z => negb (z =? 0)%Z
  | Float f => negb (PrimFloat.eqb f 0%float)
  | Str s => negb (String.eqb s "")
  | List items => match items with [] => false | _ :: _ => true end
  | Dict items => match items with [] => false | _ :: _ => true end
  end.

(** [v is None] *)
Definition is_None (v : value) : bool :=
  match v with None_ => true | _ => false end.

(** *** Exceptions *)

Inductive exn : Type :=
  (** [Exception(f'{field} type of field is not supported. ...')]: the
      message is built from the offending value, which the constructor
      carries. *)
  | UnsupportedField (field : value)
  (** [TypeError: sequence item i: expected str instance, ... found] of
      [str.join]. *)
  | JoinTypeError (i : nat) (item : value)
  (** [KeyError(k)] of a subscript on a dict, or of [groupby] on a column
      the frame does not have. *)
  | KeyError (k : string)
  (** [TypeError: unhashable type] of a group key. *)
  | UnhashableType (v : value)
  (** [ValueError: cannot insert name, already exists] of [reset_index]. *)
  | CannotInsert (name : string)
  (** a failure of the tracker client, passed on as it is. *)
  | TrackerError (msg : string).

Inductive result (A : Type) : Type :=
  | Ok (a : A)
  | Raise (e : exn).
Arguments Ok {A} a.
Arguments Raise {A} e.

Definition bind {A B} (r : result A) (k : A -> result B) : result B :=
  match r with
  | Ok a => k a
  | Raise e => Raise e
  end.

Definition is_ok {A} (r : result A) : bool :=
  match r with Ok _ => true | Raise _ => false end.

(** *** dict *)

Definition dict := list (string * value).

(** [d.get(k)] as an option; Python's [None] default is added by
    [dict_get]. The first item with the key is the item of the key. *)
Fixpoint dict_lookup (d : dict) (k : string) : option value :=
  match d with
  | [] => None
  | (k', v) :: rest => if String.eqb k k' then Some v else dict_lookup rest k
  end.

(** [d.get(k)] *)
Definition dict_get (d : dict) (k : string) : value :=
  default None_ (dict_lookup d k).

(** [d[k]] *)
Definition dict_getitem (d : dict) (k : string) : result value :=
  match dict_lookup d k with
  | Some v => Ok v
  | None => Raise (KeyError k)
  end.

(** [d[k] = v]: an existing key keeps its place, a new one goes last. *)
Fixpoint dict_setitem (d : dict) (k : string) (v : value) : dict :=
  match d with
  | [] => [(k, v)]
  | (k', v') :: rest =>
      if String.eqb k k' then (k', v) :: rest
      else (k', v') :: dict_setitem rest k v
  end.

Definition dict_keys (d : dict) : list string := map fst d.

(** *** str.join *)

(** The check [str.join] makes on its items: each has to be a [str]; the
    first that is not raises, with its position. *)
Fixpoint expect_strs (i : nat) (items : list value) : result (list string) :=
  match items with
  | [] => Ok []
  | Str s :: rest => bind (expect_strs (S i) rest) (fun ss => Ok (s :: ss))
  | v :: _ => Raise (JoinTypeError i v)
  end.

(** [sep.join(items)] *)
Definition str_join (sep : string) (items : list value) : result string :=
  bind (expect_strs 0 items) (fun ss => Ok (String.concat sep ss)).

End Py.

Import Py.

Notation "'let*' x ':=' r 'in' k" := (Py.bind r (fun x => k))
  (at level 10, x pattern, r at level 100, k at level 200).

(** ** extract_value *)

(** The helper nested in [generate_dataframes_by_jql] (lines 122-134), branch
    by branch.

    - l.123-124: [if field is None: 'N/A'] evaluates the string and drops it;
      the call falls off the end of the function, which returns [None].
    - l.125-126: [type(field) in [str, int, float]] compares the exact class.
    - l.127-130: [field.get(k)] is tested for truth, then [field[k]] is
      returned as it is.
    - l.131-132: the list comprehension runs [extract_value] on every item in
      order (the first exception leaves), then [', '.join] checks the items.
    - l.133-134: everything else raises. *)
Fixpoint extract_value (field : value) : result value :=
  if is_None field then Ok None_
  else if type_in (type field) [str_; int_; float_] then Ok field
  else
    match field with
    | Dict d =>
        if truthy (dict_get d "value") then dict_getitem d "value"
        else if truthy (dict_get d "name") then dict_getitem d "name"
        else Raise (UnsupportedField field)
    | List items =>
        let* vs :=
          (fix each (l : list value) : result (list value) :=
             match l with
             | [] => Ok []
             | i :: rest =>
                 let* v := extract_value i in
                 let* vs := each rest in
                 Ok (v :: vs)
             end) items in
        let* s := str_join ", " vs in
        Ok (Str s)
    | _ => Raise (UnsupportedField field)
    end.

(** The list comprehension and the [for] loops of the source, in the
    error monad: the first exception leaves the loop. *)
Fixpoint mapM {A B} (f : A -> result B) (l : list A) : result (list B) :=
  match l with
  | [] => Ok []
  | x :: rest =>
      let* y := f x in
      let* ys := mapM f rest in
      Ok (y :: ys)
  end.

Fixpoint foldlM {A B} (f : A -> B -> result A) (a : A) (l : list B)
  : result A :=
  match l with
  | [] => Ok a
  | x :: rest => let* a' := f a x in foldlM f a' rest
  end.

(** ** The tracker client, [jira.JIRA]

    The two calls of the client the function makes; what they answer is an
    input of the model. An item of [fields()] is a dict that has the keys
    ['id'] and ['name']; an issue of [search_issues(..., json_result=True)]
    is a dict whose ['fields'] entry is the dict of its field values. *)
Module JIRA.

Record field := { id : string; name : string }.

Record issue := { issue_fields : dict }.

Record client := {
  fields : result (list field);
  search_issues : string -> list string -> Z -> result (list issue)
}.

End JIRA.

(** ** pandas

    The part of pandas the two functions use, as its documentation has it.
    A cell of a frame built from a list of dicts is the Python object the
    dict holds, or is missing where the dict has no such key; the dtype
    inference of pandas is not modelled. *)
Module pd.

(** [columns]: the labels in the order they were first seen; [rows]: one
    dict per row, by column label. *)
Record DataFrame := { columns : list string; rows : list dict }.

Definition add_label (cols : list string) (k : string) : list string :=
  if bool_decide (k ∈ cols) then cols else cols ++ [k].

(** [DataFrame(data)] for a list of dicts *)
Definition DataFrame_ (data : list dict) : DataFrame :=
  {| columns := foldl (fun cols r => foldl add_label cols (dict_keys r)) [] data;
     rows := data |}.

(** [df[c]], a cell per row; [None] is the cell of a row without the key. *)
Definition column (df : DataFrame) (c : string) : list (option value) :=
  map (fun r => dict_lookup r c) (rows df).

(** [isna]: a missing cell, [None] and a float NaN. *)
Definition isna (c : option value) : bool :=
  match c with
  | None => true
  | Some None_ => true
  | Some (Float f) => PrimFloat.is_nan f
  | Some _ => false
  end.

(** What two group keys are compared by: Python's [==] and [hash], under
    which a string is itself and the numbers [bool], [int] and [float] are
    their exact value, here [m * 2 ^ e] with [m] odd (or [0 * 2 ^ 0]). *)
Inductive key : Type :=
  | KStr (s : string)
  | KNum (m e : Z)
  | KInf (negative : bool).

#[global] Instance key_eq_dec : EqDecision key.
Proof. solve_decision. Defined.

Fixpoint odd_part (m : positive) (e : Z) : positive * Z :=
  match m with
  | xO p => odd_part p (e + 1)
  | _ => (m, e)
  end.

Definition num (negative : bool) (m : positive) (e : Z) : key :=
  let (m', e') := odd_part m e in
  KNum (if negative then Z.neg m' else Z.pos m') e'.

Definition int_key (z : Z) : key :=
  match z with
  | Z0 => KNum 0 0
  | Z.pos p => num false p 0
  | Z.neg p => num true p 0
  end.

Inductive hashed : Type :=
  | NA
  | Unhashable (v : value)
  | Key (k : key) (v : value).

Definition hash_cell (c : option value) : hashed :=
  if isna c then NA
  else
    match c with
    | Some (Str s as v) => Key (KStr s) v
    | Some (Int z as v) => Key (int_key z) v
    | Some (Bool b as v) => Key (int_key (if b then 1 else 0)) v
    | Some (Float f as v) =>
        match Prim2SF f with
        | S754_finite s m e => Key (num s m e) v
        | S754_infinity s => Key (KInf s) v
        | _ => Key (KNum 0 0) v
        end
    | Some v => Unhashable v
    | None => NA
    end.

(** The key of a cell that has one, and whether a cell can be grouped at
    all (it is missing, or it has a key). *)
Definition cell_key (c : option value) : option key :=
  match hash_cell c with Key k _ => Some k | _ => None end.

Definition hashable (c : option value) : bool :=
  match hash_cell c with Unhashable _ => false | _ => true end.

(** The keys of a column in row order, the missing cells dropped
    ([dropna=True], the default of [groupby]); a [list] or a [dict] in a
    cell cannot be hashed. *)
Fixpoint group_keys (cells : list (option value)) : result (list (key * value)) :=
  match cells with
  | [] => Ok []
  | c :: rest =>
      match hash_cell c with
      | NA => group_keys rest
      | Unhashable v => Raise (UnhashableType v)
      | Key k v => let* ks := group_keys rest in Ok ((k, v) :: ks)
      end
  end.

(** One more row for the group of [k]; a new group goes last and shows the
    value that opened it. *)
Fixpoint count_in (k : key) (v : value) (groups : list (key * value * nat))
  : list (key * value * nat) :=
  match groups with
  | [] => [(k, v, 1)]
  | (k', v', n) :: rest =>
      if bool_decide (k = k') then (k', v', S n) :: rest
      else (k', v', n) :: count_in k v rest
  end.

Definition group_sizes (ks : list (key * value)) : list (key * value * nat) :=
  foldl (fun groups kv => count_in kv.1 kv.2 groups) [] ks.

(** [df.groupby(by).size()], a Series indexed by the group values and named
    after the column. pandas lists the groups sorted by key; here they are
    in the order of their first row, and every statement about them is up to
    that order. *)
Record Series := { index_name : string; entries : list (value * nat) }.

Definition groupby_size (df : DataFrame) (by_ : string) : result Series :=
  if bool_decide (by_ ∈ columns df) then
    let* ks := group_keys (column df by_) in
    Ok {| index_name := by_;
          entries := map (fun g => (g.1.2, g.2)) (group_sizes ks) |}
  else Raise (KeyError by_).

(** [s.reset_index(name=name)]: the index becomes the first column, the
    values the column [name]; two columns of one label are refused. *)
Definition reset_index (s : Series) (name : string) : result DataFrame :=
  if String.eqb (index_name s) name then Raise (CannotInsert (index_name s))
  else
    Ok {| columns := [index_name s; name];
          rows := map (fun e => [(index_name s, e.1);
                                 (name, Int (Z.of_nat e.2))]) (entries s) |}.

(** *** Vocabulary of the statements about a group-by *)

(** The group of a key, if it has one, and the specification of
    [group_sizes]: the group of [k] shows the value of the first row with
    key [k] and counts the rows with key [k]. *)
Fixpoint find_group (k : key) (groups : list (key * value * nat))
  : option (value * nat) :=
  match groups with
  | [] => None
  | (k', v, n) :: rest =>
      if bool_decide (k = k') then Some (v, n) else find_group k rest
  end.

Definition rows_of_key (k : key) (ks : list (key * value))
  : list (key * value) :=
  filter (fun kv => kv.1 = k) ks.

Definition group_spec (k : key) (ks : list (key * value))
  : option (value * nat) :=
  match rows_of_key k ks with
  | [] => None
  | (_, v) :: _ => Some (v, length (rows_of_key k ks))
  end.

Definition group_keys_of (groups : list (key * value * nat)) : list key :=
  map (fun g => g.1.1) groups.

(** The key and the value of a cell that is grouped. *)
Definition key_value (c : option value) : option (key * value) :=
  match hash_cell c with Key k v => Some (k, v) | _ => None end.

(** The two-column frame of a list of groups. *)
Definition counted (groupby count_column_name : string)
    (groups : list (key * value * nat)) : DataFrame :=
  {| columns := [groupby; count_column_name];
     rows := map (fun gr => [(groupby, gr.1.2);
                             (count_column_name, Int (Z.of_nat gr.2))])
                 groups |}.

(** The (value, count) pairs of a two-column frame, row by row, and the sum
    of its counts. *)
Definition pairs (g : DataFrame) : list (value * value) :=
  match columns g with
  | [c; n] => map (fun r => (dict_get r c, dict_get r n)) (rows g)
  | _ => []
  end.

Definition count_of (n : value) : Z :=
  match n with Int z => z | _ => 0%Z end.

Definition total (g : DataFrame) : Z :=
  foldr Z.add 0%Z (map (fun p => count_of p.2) (pairs g)).

End pd.

(** ** JiraReport *)

Record JiraReport := { jira_api : JIRA.client }.

(** l.151-163: [df.groupby(groupby).size().reset_index(name=count_column_name)] *)
Definition generate_groupby_count_dataframe
    (df : pd.DataFrame) (groupby : string) (count_column_name : string)
  : result pd.DataFrame :=
  let* s := pd.groupby_size df groupby in
  pd.reset_index s count_column_name.

(** l.136: [{i['id']: i for i in self.jira_api.fields()}], a later item
    replacing an earlier one of the same id. *)
Definition fields_by_id (fs : list JIRA.field) : gmap string JIRA.field :=
  foldl (fun m i => <[JIRA.id i := i]> m) ∅ fs.

(** l.140-142: the dict comprehension over [issue['fields'].items()]. For
    each item the key expression [all_jira_fields[k]['name']] is evaluated
    before the value expression [extract_value(v)]. *)
Fixpoint row_of (all_jira_fields : gmap string JIRA.field)
    (items : list (string * value)) (row : dict) : result dict :=
  match items with
  | [] => Ok row
  | (k, v) :: rest =>
      let* f := match all_jira_fields !! k with
                | Some f => Ok f
                | None => Raise (KeyError k)
                end in
      let* x := extract_value v in
      row_of all_jira_fields rest (dict_setitem row (JIRA.name f) x)
  end.

(** l.106-149 *)
Definition generate_dataframes_by_jql (self : JiraReport)
    (jql : string) (fields : list string) (jql_search_limit : Z)
  : result (pd.DataFrame * gmap string pd.DataFrame) :=
  let* fs := JIRA.fields (jira_api self) in
  let all_jira_fields := fields_by_id fs in
  let* issues := JIRA.search_issues (jira_api self) jql fields jql_search_limit in
  let* df := mapM (fun issue =>
                     row_of all_jira_fields (JIRA.issue_fields issue) [])
                  issues in
  let df := pd.DataFrame_ df in
  let* groupby_dfs :=
    foldlM (fun acc i =>
              let* g := generate_groupby_count_dataframe df i "Count" in
              Ok (<[i := g]> acc))
           ∅ (pd.columns df) in
  Ok (df, groupby_dfs).

(** ** Vocabulary of the statements about the pipeline *)

(** The spec's NormalizedValue, "a string or numeric scalar safe for tabular
    storage". *)
Definition is_normalized (v : value) : bool :=
  type_in (type v) [str_; int_; float_].

(** The loop of l.146-147 over the columns of [df]. *)
Definition groupby_loop (df : pd.DataFrame) (acc : gmap string pd.DataFrame)
    (cols : list string) : result (gmap string pd.DataFrame) :=
  foldlM (fun acc i =>
            let* g := generate_groupby_count_dataframe df i "Count" in
            Ok (<[i := g]> acc)) acc cols.

(** The rows of l.137-142, one per issue. *)
Definition tabulate (all_jira_fields : gmap string JIRA.field)
    (issues : list JIRA.issue) : result (list dict) :=
  mapM (fun issue => row_of all_jira_fields (JIRA.issue_fields issue) [])
       issues.

(** What the tabulation can raise: the [KeyError] of a field id the catalog
    does not have, or whatever [extract_value] raises on a field value. *)
Definition unknown_field_id (all_jira_fields : gmap string JIRA.field)
    (issues : list JIRA.issue) (e : exn) : Prop :=
  exists issue k v,
    issue ∈ issues /\ (k, v) ∈ JIRA.issue_fields issue /\
    all_jira_fields !! k = None /\ e = KeyError k.

Definition extraction_error (issues : list JIRA.issue) (e : exn) : Prop :=
  exists issue k v,
    issue ∈ issues /\ (k, v) ∈ JIRA.issue_fields issue /\
    extract_value v = Raise e.

(** The (key, count) pairs of the groups of a list of keyed rows. *)
Definition key_counts (ks : list (pd.key * value)) : list (pd.key * nat) :=
  map (fun gr => (gr.1.1, gr.2)) (pd.group_sizes ks).

(** ** generate_chart_figure

    l.46-67. [plotly.express] is not part of the repository: what
    [dir(px._chart_types)] lists and what [getattr(px, name)] gives are
    inputs of the model, and so is the type of the figures. The method does
    not use [self]. *)
Module px.

Inductive error : Type :=
  (** [assert ..., f'chart_type {chart_type} is not supported.'] *)
  | AssertionError (msg : string)
  (** [getattr(px, chart_type)] on a name [px] does not have *)
  | AttributeError (name : string)
  (** [df.columns[0]] on a frame without columns *)
  | IndexError
  (** [func(color=..., **kwargs)] with [kwargs] naming a keyword again *)
  | MultipleValues (keyword : string)
  (** calling an attribute that is not a function *)
  | NotCallable
  (** whatever the plotting function itself raises *)
  | Raised (msg : string).

(** The keyword arguments the plotting function receives. *)
Record call := {
  data_frame : pd.DataFrame;
  title : option string;
  color : string;
  kwargs : dict
}.

Section Express.

Variable Figure : Type.

Inductive attribute : Type :=
  | Function (f : call -> error + Figure)
  | Other.

Record module_ := {
  chart_types : list string;
  getattr : string -> option attribute
}.

End Express.

Arguments Function {Figure} f.
Arguments Other {Figure}.
Arguments chart_types {Figure} m.
Arguments getattr {Figure} m _.

End px.

(** The first key of [kwargs] that the call already names. *)
Definition repeated_keyword (kwargs : dict) : option string :=
  fst <$> List.find (fun kv => bool_decide (kv.1 ∈ ["data_frame"; "title"; "color"]))
                    kwargs.

(** The assertion comes first, then the attribute of [px], then the
    arguments of the call from left to right ([df.columns[0]] among them),
    then the merge of [**kwargs] into the keywords, then the call. *)
Definition generate_chart_figure {Figure : Type} (px_ : px.module_ Figure)
    (df : pd.DataFrame) (chart_type : string) (chart_title : option string)
    (kwargs : dict) : px.error + Figure :=
  if bool_decide (chart_type ∈ px.chart_types px_) then
    match px.getattr px_ chart_type with
    | None => inl (px.AttributeError chart_type)
    | Some func =>
        match pd.columns df with
        | [] => inl px.IndexError
        | first :: _ =>
            match repeated_keyword kwargs with
            | Some keyword => inl (px.MultipleValues keyword)
            | None =>
                match func with
                | px.Function f =>
                    f {| px.data_frame := df; px.title := chart_title;
                         px.color := first; px.kwargs := kwargs |}
                | px.Other => inl px.NotCallable
                end
            end
        end
    end
  else
    inl (px.AssertionError
           ("chart_type " ++ chart_type ++ " is not supported.")).

(** ** Sample inputs *)

(** The sample of the aggregation property: a column [High, High, Low]. *)
Definition priorities : pd.DataFrame :=
  pd.DataFrame_ [[("Priority", Str "High")]; [("Priority", Str "High")];
                 [("Priority", Str "Low")]].

(** The scenario of the spec: two issues, fields [status] and [assignee], the
    second issue without an assignee. *)
Definition two_issues : JiraReport :=
  {| jira_api :=
       {| JIRA.fields :=
            Ok [ {| JIRA.id := "status"; JIRA.name := "Status" |};
                 {| JIRA.id := "assignee"; JIRA.name := "Assignee" |} ];
          JIRA.search_issues := fun _ _ _ =>
            Ok [ {| JIRA.issue_fields :=
                      [("status", Dict [("name", Str "Open")]);
                       ("assignee", Dict [("name", Str "Alice")])] |};
                 {| JIRA.issue_fields :=
                      [("status", Dict [("name", Str "Open")]);
                       ("assignee", None_)] |} ] |} |}.

Definition two_issues_df : pd.DataFrame :=
  {| pd.columns := ["Status"; "Assignee"];
     pd.rows := [[("Status", Str "Open"); ("Assignee", Str "Alice")];
                 [("Status", Str "Open"); ("Assignee", None_)]] |}.

Definition two_issues_groupby_dfs : gmap string pd.DataFrame :=
  <["Assignee" := {| pd.columns := ["Assignee"; "Count"];
                     pd.rows := [[("Assignee", Str "Alice");
                                  ("Count", Int 1)]] |}]>
  (<["Status" := {| pd.columns := ["Status"; "Count"];
                    pd.rows := [[("Status", Str "Open");
                                 ("Count", Int 2)]] |}]> ∅).

(** A catalog that lacks a custom field the issue has. *)
Definition stale_catalog : JiraReport :=
  {| jira_api :=
       {| JIRA.fields := Ok [ {| JIRA.id := "status"; JIRA.name := "Status" |} ];
          JIRA.search_issues := fun _ _ _ =>
            Ok [ {| JIRA.issue_fields :=
                      [("status", Dict [("name", Str "Open")]);
                       ("customfield_10010", Str "gold")] |} ] |} |}.

(** A catalog in which two custom fields share the display name [Tier], and
    an issue that has both. *)
Definition tier_catalog : list JIRA.field :=
  [ {| JIRA.id := "status"; JIRA.name := "Status" |};
    {| JIRA.id := "customfield_1"; JIRA.name := "Tier" |};
    {| JIRA.id := "customfield_2"; JIRA.name := "Tier" |} ].

Definition tier_issue : list (string * value) :=
  [("customfield_1", Str "silver"); ("customfield_2", Str "gold");
   ("status", Dict [("name", Str "Open")])].

(** A tracker that finds no issue. *)
Definition no_issues : JiraReport :=
  {| jira_api :=
       {| JIRA.fields := Ok tier_catalog;
          JIRA.search_issues := fun _ _ _ => Ok [] |} |}.

(** Two issues with one field each, of different display names. *)
Definition a_then_b : JiraReport :=
  {| jira_api :=
       {| JIRA.fields := Ok [ {| JIRA.id := "a"; JIRA.name := "A" |};
                              {| JIRA.id := "b"; JIRA.name := "B" |} ];
          JIRA.search_issues := fun _ _ _ =>
            Ok [ {| JIRA.issue_fields := [("a", Str "x")] |};
                 {| JIRA.issue_fields := [("b", Str "y")] |} ] |} |}.

Definition a_then_b_df : pd.DataFrame :=
  {| pd.columns := ["A"; "B"];
     pd.rows := [[("A", Str "x")]; [("B", Str "y")]] |}.

Definition a_then_b_groupby_dfs : gmap string pd.DataFrame :=
  <["B" := {| pd.columns := ["B"; "Count"];
              pd.rows := [[("B", Str "y"); ("Count", Int 1)]] |}]>
  (<["A" := {| pd.columns := ["A"; "Count"];
               pd.rows := [[("A", Str "x"); ("Count", Int 1)]] |}]> ∅).

(** The frame of [priorities] grouped by its column. *)
Definition priorities_counted : pd.DataFrame :=
  {| pd.columns := ["Priority"; "Count"];
     pd.rows := [[("Priority", Str "High"); ("Count", Int 2)];
                 [("Priority", Str "Low"); ("Count", Int 1)]] |}.

(** A stand-in for [plotly.express]: a figure is the label it is coloured
    by; [bar] is a plotting function, [go] is listed and is no attribute. *)
Definition sample_px : px.module_ string :=
  {| px.chart_types := ["bar"; "go"];
     px.getattr := fun name =>
       if String.eqb name "bar"
       then Some (px.Function (fun c => inr (px.color c)))
       else None |}.

(** * Properties of [extract_value] *)

Section Extract.

Implicit Types (field v r : value) (d : dict) (items : list value).

Lemma extract_value_List items :
  extract_value (List items) =
  let* vs := mapM extract_value items in
  let* s := str_join ", " vs in
  Ok (Str s).
Proof.
  cbn [extract_value is_None type type_in existsb].
  replace (bool_decide (list_ = str_) || (bool_decide (list_ = int_)
             || (bool_decide (list_ = float_) || false))) with false
    by reflexivity.
  f_equal. induction items as [|i rest IH]; [reflexivity|].
  cbn [mapM]. destruct (extract_value i); [|reflexivity].
  cbn [bind]. now rewrite IH.
Qed.

Lemma extract_value_Dict d :
  extract_value (Dict d) =
  if truthy (dict_get d "value") then dict_getitem d "value"
  else if truthy (dict_get d "name") then dict_getitem d "name"
  else Raise (UnsupportedField (Dict d)).
Proof. reflexivity. Qed.

Lemma dict_get_lookup d k x : dict_lookup d k = Some x -> dict_get d k = x.
Proof. unfold dict_get. now intros ->. Qed.

Lemma dict_get_absent d k : dict_lookup d k = None -> dict_get d k = None_.
Proof. unfold dict_get. now intros ->. Qed.

Lemma dict_get_truthy d k :
  truthy (dict_get d k) = true ->
  dict_lookup d k = Some (dict_get d k) /\ dict_getitem d k = Ok (dict_get d k).
Proof.
  unfold dict_get, dict_getitem.
  destruct (dict_lookup d k); cbn; [auto | discriminate].
Qed.

Lemma expect_strs_Str i (ss : list string) :
  expect_strs i (map Str ss) = Ok ss.
Proof.
  revert i. induction ss as [|s ss IH]; intros i; [reflexivity|].
  cbn. now rewrite IH.
Qed.

Lemma expect_strs_Ok i items ss :
  expect_strs i items = Ok ss -> items = map Str ss.
Proof.
  revert i ss. induction items as [|v rest IH]; intros i ss.
  - cbn. now intros [= <-].
  - cbn. destruct v; try discriminate.
    destruct (expect_strs (S i) rest) as [ss'|] eqn:E; [|discriminate].
    cbn. intros [= <-]. cbn. f_equal. eauto.
Qed.

Lemma mapM_Forall2 {A B} (f : A -> result B) (l : list A) (l' : list B) :
  mapM f l = Ok l' <-> Forall2 (fun x y => f x = Ok y) l l'.
Proof.
  revert l'. induction l as [|x l IH]; intros l'; cbn.
  - split; [intros [= <-]; constructor | now inversion 1].
  - destruct (f x) as [y|e] eqn:Ex; cbn.
    + destruct (mapM f l) as [ys|e] eqn:El; cbn.
      * split.
        -- intros [= <-]. constructor; [assumption | now apply IH].
        -- inversion 1 as [|? y' ? ys' Hy Hys]; subst.
           rewrite Ex in Hy. injection Hy as <-.
           apply IH in Hys. now injection Hys as <-.
      * split; [discriminate|].
        inversion 1 as [|? y' ? ys' Hy Hys]; subst.
        apply IH in Hys. discriminate.
    + split; [discriminate|].
      inversion 1 as [|? y' ? ys' Hy Hys]; subst. congruence.
Qed.

(** C1. The null input: the code evaluates the marker ["N/A"] and drops it,
    so [extract_value(None)] returns [None], not the marker. *)
Theorem extract_value_null_returns_None :
  extract_value None_ = Ok None_ /\ extract_value None_ <> Ok (Str "N/A").
Proof. split; [reflexivity | discriminate]. Qed.

(** C7. Scalar identity: a string, an integer and a float are returned
    unchanged. *)
Theorem extract_value_scalar_identity (s : string) (z : Z) (f : float) :
  extract_value (Str s) = Ok (Str s) /\
  extract_value (Int z) = Ok (Int z) /\
  extract_value (Float f) = Ok (Float f).
Proof. repeat split. Qed.

(** C10. A boolean is an instance of [int], but its exact class is not one
    of [str], [int], [float]: [extract_value] raises the unsupported-shape
    exception on it. *)
Theorem extract_value_bool_unsupported (b : bool) :
  isinstance (Bool b) int_ = true /\
  type_in (type (Bool b)) [str_; int_; float_] = false /\
  extract_value (Bool b) = Raise (UnsupportedField (Bool b)).
Proof. repeat split. Qed.

(** C8. Every value that none of the earlier branches takes (not [None], not
    of class [str], [int] or [float], not a dict with a truthy ['value'] or
    ['name'] entry, not a list) raises the unsupported-shape exception, which
    carries the value. *)
Theorem extract_value_unsupported_shape field :
  is_None field = false ->
  type_in (type field) [str_; int_; float_] = false ->
  (forall d, field = Dict d ->
     truthy (dict_get d "value") = false /\
     truthy (dict_get d "name") = false) ->
  type field <> list_ ->
  extract_value field = Raise (UnsupportedField field).
Proof.
  intros HN HS HD HL.
  destruct field as [|b|z|f|s|items|d]; try discriminate; try reflexivity.
  - now destruct HL.
  - destruct (HD d eq_refl) as [Hv Hn].
    now rewrite extract_value_Dict, Hv, Hn.
Qed.

Lemma extract_value_unsupported_shape_witness :
  extract_value (Dict [("other", Int 1)]) =
  Raise (UnsupportedField (Dict [("other", Int 1)])).
Proof.
  apply extract_value_unsupported_shape.
  - reflexivity.
  - reflexivity.
  - intros d [= <-]. split; reflexivity.
  - discriminate.
Defined.

(** A dict with neither key is such a value. *)
Lemma extract_value_neither_key d :
  dict_lookup d "value" = None -> dict_lookup d "name" = None ->
  extract_value (Dict d) = Raise (UnsupportedField (Dict d)).
Proof.
  intros Hv Hn. rewrite extract_value_Dict.
  now rewrite (dict_get_absent _ _ Hv), (dict_get_absent _ _ Hn).
Qed.

(** A list all of whose items extract to strings yields their join; this is
    the general form of the list branch. *)
Lemma extract_value_List_strs items (ss : list string) :
  Forall2 (fun v s => extract_value v = Ok (Str s)) items ss ->
  extract_value (List items) = Ok (Str (String.concat ", " ss)).
Proof.
  intros H. rewrite extract_value_List.
  assert (mapM extract_value items = Ok (map Str ss)) as ->.
  { apply mapM_Forall2. induction H; constructor; auto. }
  cbn [bind]. unfold str_join. now rewrite expect_strs_Str.
Qed.

(** And only such a list: the list branch returns exactly when every item
    extracts to a string. *)
Lemma extract_value_List_Ok items r :
  extract_value (List items) = Ok r <->
  exists ss, Forall2 (fun v s => extract_value v = Ok (Str s)) items ss /\
             r = Str (String.concat ", " ss).
Proof.
  split.
  - rewrite extract_value_List.
    destruct (mapM extract_value items) as [vs|] eqn:Evs; [|discriminate].
    cbn [bind]. unfold str_join.
    destruct (expect_strs 0 vs) as [ss|] eqn:Ess; [|discriminate].
    cbn [bind]. intros [= <-]. exists ss. split; [|reflexivity].
    apply expect_strs_Ok in Ess as ->.
    apply mapM_Forall2 in Evs. now apply Forall2_fmap_r in Evs.
  - intros (ss & H & ->). now apply extract_value_List_strs.
Qed.

(** C3, as the code has it. For every sequence of raw values each of which
    extracts to a string, [extract_value] of the sequence is the join of those
    strings with [", "] in the order of the items: for three items [a], [b],
    [c] it is [sa ++ ", " ++ sb ++ ", " ++ sc]; and the empty sequence gives
    the empty string. *)
Theorem extract_value_list_join items (ss : list string) :
  Forall2 (fun v s => extract_value v = Ok (Str s)) items ss ->
  extract_value (List items) = Ok (Str (String.concat ", " ss)) /\
  (forall sa sb sc, ss = [sa; sb; sc] ->
     extract_value (List items) = Ok (Str (sa ++ ", " ++ sb ++ ", " ++ sc))) /\
  extract_value (List []) = Ok (Str "").
Proof.
  intros H. split; [|split].
  - now apply extract_value_List_strs.
  - intros sa sb sc ->. now rewrite (extract_value_List_strs _ _ H).
  - reflexivity.
Qed.

Lemma extract_value_list_join_witness :
  extract_value
    (List [Str "backend"; Dict [("name", Str "api")]; Dict [("value", Str "P1")]])
  = Ok (Str "backend, api, P1").
Proof.
  refine (proj1 (extract_value_list_join _ ["backend"; "api"; "P1"] _)).
  repeat constructor.
Defined.

(** C3, as the spec states it, fails: the integers 1, 2 and 3 are each
    extractable, and the list of them raises the [TypeError] of [str.join]. *)
Lemma extract_value_list_join_counterexample :
  extract_value (Int 1) = Ok (Int 1) /\
  extract_value (Int 2) = Ok (Int 2) /\
  extract_value (Int 3) = Ok (Int 3) /\
  extract_value (List [Int 1; Int 2; Int 3]) = Raise (JoinTypeError 0 (Int 1)) /\
  forall r, extract_value (List [Int 1; Int 2; Int 3]) <> Ok r.
Proof. repeat split. intros r. discriminate. Qed.

(** C4, as the code has it. For every truthy [x] and [y]: a dict whose
    ['value'] entry is [x] extracts to [x], whatever else it holds (a ['name']
    entry too); a dict with no ['value'] key whose ['name'] entry is [y]
    extracts to [y]. *)
Theorem extract_value_option_name d (x y : value) :
  truthy x = true -> truthy y = true ->
  (dict_lookup d "value" = Some x -> extract_value (Dict d) = Ok x) /\
  (dict_lookup d "value" = None -> dict_lookup d "name" = Some y ->
     extract_value (Dict d) = Ok y).
Proof.
  intros Hx Hy. split.
  - intros Hv. rewrite extract_value_Dict, (dict_get_lookup _ _ _ Hv), Hx.
    unfold dict_getitem. now rewrite Hv.
  - intros Hv Hn.
    rewrite extract_value_Dict, (dict_get_absent _ _ Hv).
    cbn [truthy]. rewrite (dict_get_lookup _ _ _ Hn), Hy.
    unfold dict_getitem. now rewrite Hn.
Qed.

Lemma extract_value_option_name_witness :
  extract_value (Dict [("value", Str "High")]) = Ok (Str "High") /\
  extract_value (Dict [("name", Str "Open")]) = Ok (Str "Open") /\
  extract_value (Dict [("name", Str "Open"); ("value", Str "High")])
  = Ok (Str "High").
Proof.
  split; [|split].
  - apply (extract_value_option_name [("value", Str "High")]
             (Str "High") (Str "Open")); reflexivity.
  - apply (extract_value_option_name [("name", Str "Open")]
             (Str "High") (Str "Open")); reflexivity.
  - apply (extract_value_option_name
             [("name", Str "Open"); ("value", Str "High")]
             (Str "High") (Str "Open")); reflexivity.
Defined.

(** C4, as the spec states it for every [x], fails on a falsy [x]: the dict
    [{"value": 0}] raises, and in [{"value": "", "name": "Open"}] the name
    wins over the value. *)
Lemma extract_value_option_name_counterexample :
  extract_value (Dict [("value", Int 0)])
  = Raise (UnsupportedField (Dict [("value", Int 0)])) /\
  extract_value (Dict [("value", Int 0)]) <> Ok (Int 0) /\
  extract_value (Dict [("value", Str ""); ("name", Str "Open")])
  = Ok (Str "Open") /\
  extract_value (Dict [("value", Str ""); ("name", Str "Open")])
  <> Ok (Str "").
Proof. repeat split; discriminate. Qed.

(** C5, as the code has it. On a raw value other than [None] on which
    [extract_value] returns: if the value is a dict, the result is its
    ['value'] or its ['name'] entry, truthy and returned as it is; if it is
    not a dict (a scalar or a list), the result is a string or a number. *)
Theorem extract_value_result_shape field r :
  extract_value field = Ok r ->
  is_None field = false ->
  (forall d, field = Dict d ->
     (dict_lookup d "value" = Some r \/ dict_lookup d "name" = Some r) /\
     truthy r = true) /\
  (type field <> dict_ -> is_normalized r = true).
Proof.
  intros Hr HN. split.
  - intros d ->. rewrite extract_value_Dict in Hr.
    destruct (truthy (dict_get d "value")) eqn:Hv.
    + destruct (dict_get_truthy _ _ Hv) as [Hl Hg].
      rewrite Hg in Hr. injection Hr as <-. auto.
    + destruct (truthy (dict_get d "name")) eqn:Hn; [|discriminate].
      destruct (dict_get_truthy _ _ Hn) as [Hl Hg].
      rewrite Hg in Hr. injection Hr as <-. auto.
  - intros HD.
    destruct field as [|b|z|f|s|items|d]; try discriminate.
    + now injection Hr as <-.
    + now injection Hr as <-.
    + now injection Hr as <-.
    + rewrite extract_value_List in Hr.
      destruct (mapM extract_value items); [|discriminate].
      cbn [bind] in Hr. destruct (str_join ", " a); [|discriminate].
      now injection Hr as <-.
    + now destruct HD.
Qed.

Lemma extract_value_result_shape_witness :
  extract_value (List [Str "api"; Dict [("name", Str "web")]])
  = Ok (Str "api, web") /\
  is_normalized (Str "api, web") = true /\
  (dict_lookup [("name", Str "web")] "value" = Some (Str "web") \/
   dict_lookup [("name", Str "web")] "name" = Some (Str "web")).
Proof.
  split; [reflexivity|]. split.
  - refine (proj2 (extract_value_result_shape
                     (List [Str "api"; Dict [("name", Str "web")]])
                     (Str "api, web") _ _) _);
      [reflexivity | reflexivity | discriminate].
  - refine (proj1 (proj1 (extract_value_result_shape
                            (Dict [("name", Str "web")]) (Str "web") _ _)
                         _ eq_refl)); reflexivity.
Defined.

(** C5, as the spec states it, fails: an option-object whose ['value'] entry
    is itself a dict is returned as that nested dict. *)
Lemma extract_value_result_shape_counterexample :
  extract_value (Dict [("value", Dict [("id", Int 7)])])
  = Ok (Dict [("id", Int 7)]) /\
  is_normalized (Dict [("id", Int 7)]) = false.
Proof. split; reflexivity. Qed.

End Extract.

(** * Properties of the group-by count *)

Section GroupSizes.

Import pd.

Implicit Types (k : key) (v : value) (ks : list (key * value))
  (groups : list (key * value * nat)).

Lemma find_group_count_in k k' v groups :
  find_group k' (count_in k v groups) =
  if bool_decide (k' = k) then
    Some (match find_group k groups with
          | Some (v0, n) => (v0, S n)
          | None => (v, 1)
          end)
  else find_group k' groups.
Proof.
  induction groups as [|[[k0 v0] n0] rest IH]; cbn.
  - now destruct (bool_decide (k' = k)).
  - destruct (bool_decide_reflect (k = k0)) as [->|Hne]; cbn.
    + now destruct (bool_decide (k' = k0)).
    + rewrite IH.
      destruct (bool_decide_reflect (k' = k)) as [->|Hne'].
      * now rewrite bool_decide_eq_false_2.
      * reflexivity.
Qed.

Lemma group_keys_count_in k v groups :
  group_keys_of (count_in k v groups) =
  if bool_decide (k ∈ group_keys_of groups) then group_keys_of groups
  else (group_keys_of groups ++ [k])%list.
Proof.
  unfold group_keys_of.
  induction groups as [|[[k0 v0] n0] rest IH]; cbn; [reflexivity|].
  destruct (bool_decide_reflect (k = k0)) as [->|Hne]; cbn.
  - now rewrite bool_decide_eq_true_2 by left.
  - rewrite IH.
    destruct (bool_decide_reflect (k ∈ map (fun g => g.1.1) rest)) as [Hin|Hin].
    + now rewrite bool_decide_eq_true_2 by now right.
    + rewrite bool_decide_eq_false_2; [reflexivity|].
      intros [?|?]%elem_of_cons; contradiction.
Qed.

Lemma group_sizes_snoc ks k v :
  group_sizes (ks ++ [(k, v)]) = count_in k v (group_sizes ks).
Proof. unfold group_sizes. now rewrite foldl_app. Qed.

Lemma group_sizes_NoDup ks : NoDup (group_keys_of (group_sizes ks)).
Proof.
  induction ks as [|[k v] ks IH] using rev_ind; [constructor|].
  rewrite group_sizes_snoc, group_keys_count_in.
  case_bool_decide as Hin; [assumption|].
  apply NoDup_app. repeat split; [assumption| |apply NoDup_singleton].
  intros x Hx ->%list_elem_of_singleton. contradiction.
Qed.

Lemma find_group_spec k ks : find_group k (group_sizes ks) = group_spec k ks.
Proof.
  induction ks as [|[k' v'] ks IH] using rev_ind; [reflexivity|].
  rewrite group_sizes_snoc, find_group_count_in.
  unfold group_spec, rows_of_key in *. rewrite filter_app.
  destruct (bool_decide_reflect (k = k')) as [->|Hne].
  - rewrite IH, filter_cons_True, filter_nil by reflexivity.
    destruct (filter _ ks) as [|[k0 v0] l]; cbn; [reflexivity|].
    rewrite length_app. cbn. do 3 f_equal. lia.
  - rewrite IH, filter_cons_False, filter_nil by (cbn; congruence).
    now rewrite app_nil_r.
Qed.

Lemma find_group_elem k v n groups :
  NoDup (group_keys_of groups) ->
  (k, v, n) ∈ groups <-> find_group k groups = Some (v, n).
Proof.
  induction groups as [|[[k0 v0] n0] rest IH]; cbn; intros HND.
  - split; [intros H; inversion H | discriminate].
  - apply NoDup_cons in HND as [Hk0 HND].
    destruct (bool_decide_reflect (k = k0)) as [->|Hne].
    + split.
      * intros [[= -> ->]|Hin]%elem_of_cons; [reflexivity|].
        destruct Hk0. apply list_elem_of_fmap. now exists (k0, v, n).
      * intros [= -> ->]. left.
    + rewrite <- IH by assumption. split.
      * intros [[= -> -> ->]|Hin]%elem_of_cons; [contradiction|assumption].
      * now right.
Qed.

Lemma group_sizes_elem k v n ks :
  (k, v, n) ∈ group_sizes ks <-> group_spec k ks = Some (v, n).
Proof.
  rewrite <- find_group_spec.
  apply find_group_elem, group_sizes_NoDup.
Qed.

Lemma group_sizes_total ks :
  sum_list (map snd (group_sizes ks)) = length ks.
Proof.
  assert (forall k v groups,
    sum_list (map snd (count_in k v groups)) = S (sum_list (map snd groups)))
    as Hstep.
  { intros k v groups.
    induction groups as [|[[k0 v0] n0] rest IH]; cbn; [reflexivity|].
    case_bool_decide; cbn; [reflexivity|]. rewrite IH. lia. }
  induction ks as [|[k v] ks IH] using rev_ind; [reflexivity|].
  rewrite group_sizes_snoc, Hstep, IH, length_app. cbn. lia.
Qed.

End GroupSizes.

Section GroupByCount.

Import pd.

Implicit Types (df g : DataFrame) (c : option value) (v : value)
  (cells : list (option value)).

Lemma hash_cell_NA c : hash_cell c = NA <-> isna c = true.
Proof.
  unfold hash_cell. destruct (isna c) eqn:E; [easy|].
  split; [|discriminate].
  destruct c as [[| | |f| | |]|]; try discriminate.
  now destruct (Prim2SF f).
Qed.

Lemma hash_cell_Key c k v :
  hash_cell c = Key k v -> c = Some v /\ isna c = false.
Proof.
  unfold hash_cell. destruct (isna c) eqn:E; [discriminate|].
  destruct c as [[| | |f| | |]|]; try discriminate;
    try (now intros [= _ <-]).
  destruct (Prim2SF f); now intros [= _ <-].
Qed.

Lemma key_value_Some c k v :
  key_value c = Some (k, v) ->
  c = Some v /\ isna c = false /\ cell_key c = Some k.
Proof.
  unfold key_value, cell_key.
  destruct (hash_cell c) as [|u|k' v'] eqn:E; try discriminate.
  intros [= -> ->]. destruct (hash_cell_Key _ _ _ E). auto.
Qed.

Lemma key_value_present c :
  hashable c = true -> isna c = false ->
  exists k v, key_value c = Some (k, v).
Proof.
  unfold hashable, key_value. intros Hh Hna.
  destruct (hash_cell c) as [|u|k v] eqn:E; [|discriminate|eauto].
  apply hash_cell_NA in E. congruence.
Qed.

Lemma key_value_None c :
  hashable c = true -> key_value c = None <-> isna c = true.
Proof.
  unfold hashable, key_value. intros Hh. rewrite <- hash_cell_NA.
  destruct (hash_cell c); easy.
Qed.

Lemma group_keys_hashable cells :
  Forall (fun c => hashable c = true) cells ->
  group_keys cells = Ok (omap key_value cells).
Proof.
  induction 1 as [|c cells Hc _ IH]; [reflexivity|].
  cbn. unfold hashable, key_value in *.
  destruct (hash_cell c); [assumption|discriminate|].
  now rewrite IH.
Qed.

Lemma present_cells_length cells :
  Forall (fun c => hashable c = true) cells ->
  length (omap key_value cells) = length (filter (fun c => isna c = false) cells).
Proof.
  induction 1 as [|c cells Hc _ IH]; [reflexivity|].
  destruct (isna c) eqn:Hna.
  - rewrite filter_cons_False by congruence.
    cbn [omap list_omap]. now rewrite (proj2 (key_value_None _ Hc) Hna).
  - rewrite filter_cons_True by assumption.
    destruct (key_value_present _ Hc Hna) as (k & v & Hkv).
    cbn [omap list_omap]. rewrite Hkv. cbn. now rewrite IH.
Qed.

Lemma rows_of_key_length k cells :
  length (rows_of_key k (omap key_value cells)) =
  length (filter (fun c => cell_key c = Some k) cells).
Proof.
  unfold rows_of_key.
  induction cells as [|c cells IH]; [reflexivity|].
  cbn [omap list_omap]. unfold key_value at 1.
  destruct (hash_cell c) as [|u|k' v'] eqn:E.
  - rewrite (filter_cons_False _ c); [assumption|].
    unfold cell_key. now rewrite E.
  - rewrite (filter_cons_False _ c); [assumption|].
    unfold cell_key. now rewrite E.
  - destruct (decide (k' = k)) as [->|Hne].
    + rewrite (filter_cons_True _ c) by (unfold cell_key; now rewrite E).
      rewrite filter_cons_True by reflexivity. cbn. now rewrite IH.
    + rewrite (filter_cons_False _ c)
        by (unfold cell_key; rewrite E; congruence).
      rewrite filter_cons_False by (cbn; congruence). apply IH.
Qed.

Lemma rows_of_key_elem k k' v ks :
  (k', v) ∈ rows_of_key k ks -> k' = k /\ (k, v) ∈ ks.
Proof.
  unfold rows_of_key. intros [Hk Hin]%list_elem_of_filter.
  cbn in Hk. now subst.
Qed.

Lemma generate_groupby_count_dataframe_hashable
    df (groupby count_column_name : string) :
  groupby ∈ columns df ->
  groupby <> count_column_name ->
  Forall (fun c => hashable c = true) (column df groupby) ->
  generate_groupby_count_dataframe df groupby count_column_name =
  Ok (counted groupby count_column_name
        (group_sizes (omap key_value (column df groupby)))).
Proof.
  intros Hin Hne Hh.
  unfold generate_groupby_count_dataframe, groupby_size.
  rewrite bool_decide_eq_true_2 by assumption.
  rewrite (group_keys_hashable _ Hh). cbn [bind].
  unfold reset_index. cbn [index_name entries].
  rewrite (proj2 (String.eqb_neq _ _) Hne).
  unfold counted. f_equal. f_equal. now rewrite map_map.
Qed.

Lemma pairs_counted (groupby count_column_name : string) groups :
  groupby <> count_column_name ->
  pairs (counted groupby count_column_name groups) =
  map (fun gr => (gr.1.2, Int (Z.of_nat gr.2))) groups.
Proof.
  intros Hne. unfold pairs, counted. cbn [columns rows].
  rewrite map_map. apply map_ext. intros [[k v] n].
  unfold dict_get. cbn.
  rewrite String.eqb_refl.
  assert (String.eqb count_column_name groupby = false) as ->
    by (apply String.eqb_neq; congruence).
  now rewrite String.eqb_refl.
Qed.

Lemma total_counted (groupby count_column_name : string) groups :
  groupby <> count_column_name ->
  total (counted groupby count_column_name groups) =
  Z.of_nat (sum_list (map snd groups)).
Proof.
  intros Hne. unfold total. rewrite (pairs_counted _ _ _ Hne), map_map.
  induction groups as [|[[k v] n] rest IH]; [reflexivity|].
  cbn in *. rewrite IH. lia.
Qed.

(** A group of the column: its value is a present cell of the column, its
    key the key of that cell, its count the number of cells with that key. *)
Lemma group_sizes_cells cells (k : key) v (n : nat) :
  (k, v, n) ∈ group_sizes (omap key_value cells) ->
  Some v ∈ cells /\ isna (Some v) = false /\ cell_key (Some v) = Some k /\
  n = length (filter (fun c => cell_key c = Some k) cells).
Proof.
  intros Hg%group_sizes_elem. unfold group_spec in Hg.
  destruct (rows_of_key k (omap key_value cells)) as [|[k0 v0] l] eqn:E;
    [discriminate|].
  injection Hg as -> <-.
  assert ((k0, v) ∈ rows_of_key k (omap key_value cells)) as Hin
    by (rewrite E; left).
  apply rows_of_key_elem in Hin as [-> Hin].
  apply list_elem_of_omap in Hin as (c & Hc & Hkv).
  apply key_value_Some in Hkv as (-> & Hna & Hk).
  rewrite <- rows_of_key_length, E. auto.
Qed.

Lemma group_sizes_covers cells c :
  c ∈ cells -> hashable c = true -> isna c = false ->
  exists k v n, (k, v, n) ∈ group_sizes (omap key_value cells) /\
                cell_key c = Some k.
Proof.
  intros Hin Hh Hna.
  destruct (key_value_present _ Hh Hna) as (k & v & Hkv).
  assert ((k, v) ∈ rows_of_key k (omap key_value cells)) as Hrow.
  { apply list_elem_of_filter. split; [reflexivity|].
    apply list_elem_of_omap. eauto. }
  destruct (rows_of_key k (omap key_value cells)) as [|[k0 v0] l] eqn:E;
    [inversion Hrow|].
  exists k, v0, (length (rows_of_key k (omap key_value cells))). split.
  - apply group_sizes_elem. unfold group_spec. now rewrite E.
  - now apply key_value_Some in Hkv as (_ & _ & ?).
Qed.

(** C2, as the code has it. For every frame and every column of it that is
    not labelled like the count column and whose cells can be hashed, the
    call returns a two-column frame that has one row per distinct key among
    the present cells of the column. A row shows a present cell and the
    number of rows of the frame whose cell has the same key; no row stands
    for the missing cells, which are left out; the counts add up to the
    number of rows with a present cell, which is the number of rows of the
    frame when no cell of the column is missing. A column [x, x, y] with
    present [x] and [y] of different keys gives the pairs (x, 2), (y, 1). *)
Theorem groupby_count_present_cells df (groupby count_column_name : string) :
  groupby ∈ columns df ->
  groupby <> count_column_name ->
  Forall (fun c => hashable c = true) (column df groupby) ->
  exists g,
    generate_groupby_count_dataframe df groupby count_column_name = Ok g /\
    columns g = [groupby; count_column_name] /\
    (forall v n, (v, n) ∈ pairs g ->
       Some v ∈ column df groupby /\ isna (Some v) = false /\
       n = Int (Z.of_nat (length
             (filter (fun c => cell_key c = cell_key (Some v))
                     (column df groupby))))) /\
    (forall c, c ∈ column df groupby -> isna c = false ->
       exists v n, (v, n) ∈ pairs g /\ cell_key (Some v) = cell_key c) /\
    NoDup (map (fun p => cell_key (Some p.1)) (pairs g)) /\
    total g = Z.of_nat (length (filter (fun c => isna c = false)
                                       (column df groupby))) /\
    (Forall (fun c => isna c = false) (column df groupby) ->
       total g = Z.of_nat (length (rows df))) /\
    (forall x y, column df groupby = [Some x; Some x; Some y] ->
       isna (Some x) = false -> isna (Some y) = false ->
       cell_key (Some x) <> cell_key (Some y) ->
       pairs g ≡ₚ [(x, Int 2); (y, Int 1)]).
Proof.
  intros Hin Hne Hh.
  eexists. split; [now apply generate_groupby_count_dataframe_hashable|].
  set (cells := column df groupby) in *.
  assert (total (counted groupby count_column_name
                   (group_sizes (omap key_value cells)))
          = Z.of_nat (length (filter (fun c => isna c = false) cells)))
    as Htotal.
  { rewrite total_counted, group_sizes_total by assumption.
    now rewrite present_cells_length. }
  rewrite (pairs_counted _ _ _ Hne).
  split; [reflexivity|]. split; [|split; [|split; [|split; [|split]]]].
  - intros v n ([[k v'] m] & [= <- ->] & Hg)%list_elem_of_fmap.
    apply group_sizes_cells in Hg as (Hv & Hna & Hk & ->).
    rewrite Hk. auto.
  - intros c Hc Hna.
    assert (hashable c = true) as Hhc
      by (eapply (proj1 (Forall_forall _ _) Hh); eassumption).
    destruct (group_sizes_covers _ _ Hc Hhc Hna) as (k & v & n & Hg & Hk).
    exists v, (Int (Z.of_nat n)). split.
    + apply list_elem_of_fmap. now exists (k, v, n).
    + apply group_sizes_cells in Hg as (_ & _ & Hkv & _). congruence.
  - rewrite map_map. cbn [fst].
    assert (map (fun gr : key * value * nat => cell_key (Some gr.1.2))
                (group_sizes (omap key_value cells))
            = map Some (group_keys_of (group_sizes (omap key_value cells))))
      as ->.
    { unfold group_keys_of. rewrite map_map. apply map_ext_in.
      intros [[k v] n] Hg%list_elem_of_In.
      now apply group_sizes_cells in Hg as (_ & _ & Hkv & _). }
    apply (NoDup_fmap_2 Some), group_sizes_NoDup.
  - exact Htotal.
  - intros Hall. rewrite Htotal. f_equal.
    assert (filter (fun c => isna c = false) cells = cells) as ->.
    { clear -Hall. induction Hall as [|c l Hc _ IH]; [reflexivity|].
      rewrite filter_cons_True by assumption. now rewrite IH. }
    unfold cells, column. now rewrite length_map.
  - intros x y Hcol Hx Hy Hxy. rewrite Hcol in Hh |- *.
    apply Forall_cons in Hh as [Hhx Hh].
    apply Forall_cons in Hh as [_ Hh].
    apply Forall_cons in Hh as [Hhy _].
    destruct (key_value_present _ Hhx Hx) as (kx & vx & Hkx).
    destruct (key_value_present _ Hhy Hy) as (ky & vy & Hky).
    destruct (key_value_Some _ _ _ Hkx) as ([= <-] & _ & Hcx).
    destruct (key_value_Some _ _ _ Hky) as ([= <-] & _ & Hcy).
    cbn [omap list_omap]. rewrite Hkx, Hky.
    unfold group_sizes. cbn [foldl fst snd count_in].
    case_bool_decide; [|congruence]. cbn [count_in].
    case_bool_decide; [congruence|]. reflexivity.
Qed.

Lemma groupby_count_present_cells_witness :
  exists g,
    generate_groupby_count_dataframe priorities "Priority" "Count" = Ok g /\
    pairs g ≡ₚ [(Str "High", Int 2); (Str "Low", Int 1)] /\
    total g = 3%Z.
Proof.
  destruct (groupby_count_present_cells priorities "Priority" "Count")
    as (g & Hg & _ & _ & _ & _ & Htotal & _ & Hxxy).
  - apply list_elem_of_here.
  - discriminate.
  - repeat constructor.
  - exists g. split; [exact Hg|]. split; [|exact Htotal].
    apply Hxxy; [reflexivity | reflexivity | reflexivity | discriminate].
Defined.

(** C2, as the spec states it, fails: of the two rows [{"A": x}] and
    [{"B": y}] the second has a missing cell under [A]; grouping by [A] gives
    the one pair (x, 1), no group for the missing cell, and a total of 1 for
    2 rows. *)
Lemma groupby_count_missing_cell_counterexample :
  let df := DataFrame_ [[("A", Str "x")]; [("B", Str "y")]] in
  columns df = ["A"; "B"] /\
  column df "A" = [Some (Str "x"); None] /\
  generate_groupby_count_dataframe df "A" "Count"
  = Ok {| columns := ["A"; "Count"];
          rows := [[("A", Str "x"); ("Count", Int 1)]] |} /\
  total {| columns := ["A"; "Count"];
           rows := [[("A", Str "x"); ("Count", Int 1)]] |} = 1%Z /\
  length (rows df) = 2 /\
  total {| columns := ["A"; "Count"];
           rows := [[("A", Str "x"); ("Count", Int 1)]] |}
  <> Z.of_nat (length (rows df)).
Proof. vm_compute. repeat split. discriminate. Qed.

End GroupByCount.

(** * Properties of the pipeline *)

Section Pipeline.

Implicit Types (self : JiraReport) (df g : pd.DataFrame)
  (fs : list JIRA.field) (issues : list JIRA.issue) (e : exn).

(** A run that returned went through every [let*]: split on the next one and
    drop the case that raises. *)
Ltac next_bind x :=
  match goal with
  | |- context [Py.bind ?r _] =>
      destruct r as [x|] eqn:?; [cbn [bind] | discriminate]
  end.

Lemma fields_by_id_None fs (k : string) :
  fields_by_id fs !! k = None <-> k ∉ map JIRA.id fs.
Proof.
  unfold fields_by_id.
  assert (forall (m : gmap string JIRA.field),
    foldl (fun m i => <[JIRA.id i := i]> m) m fs !! k = None <->
    m !! k = None /\ k ∉ map JIRA.id fs) as H.
  { induction fs as [|i fs IH]; intros m; cbn.
    - split; [intros ?; split; [assumption|apply not_elem_of_nil] | tauto].
    - rewrite IH, not_elem_of_cons, lookup_insert_None.
      intuition congruence. }
  rewrite H, lookup_empty. tauto.
Qed.

Lemma groupby_loop_Ok df cols (acc out : gmap string pd.DataFrame) :
  groupby_loop df acc cols = Ok out ->
  (forall c, c ∈ cols ->
     exists g, out !! c = Some g /\
               generate_groupby_count_dataframe df c "Count" = Ok g) /\
  (forall c, c ∉ cols -> out !! c = acc !! c).
Proof.
  unfold groupby_loop. revert acc.
  induction cols as [|i cols IH]; intros acc; cbn.
  - intros [= <-]. split; [intros c Hc; inversion Hc | reflexivity].
  - destruct (generate_groupby_count_dataframe df i "Count") as [g|]
      eqn:Eg; [|discriminate].
    cbn. intros [Hin Hout]%IH. split.
    + intros c Hc. destruct (decide (c ∈ cols)) as [|Hnot]; [auto|].
      apply elem_of_cons in Hc as [->|]; [|contradiction].
      exists g. now rewrite Hout, lookup_insert_eq.
    + intros c [Hne Hnot]%not_elem_of_cons.
      now rewrite Hout, lookup_insert_ne.
Qed.

(** C6. On a run that returns [(df, groupby_dfs)], every column of [df] has
    an entry in [groupby_dfs], the entry is what
    [generate_groupby_count_dataframe] computes on that same [df] for the
    column (the same frame, so the same pairs), and [groupby_dfs] has no other
    entry. *)
Theorem pipeline_aggregates_consistent self (jql : string)
    (fields : list string) (jql_search_limit : Z) df
    (groupby_dfs : gmap string pd.DataFrame) :
  generate_dataframes_by_jql self jql fields jql_search_limit
  = Ok (df, groupby_dfs) ->
  (forall c, c ∈ pd.columns df ->
     exists g, groupby_dfs !! c = Some g /\
               generate_groupby_count_dataframe df c "Count" = Ok g /\
               forall g', generate_groupby_count_dataframe df c "Count" = Ok g' ->
                          pd.pairs g ≡ₚ pd.pairs g') /\
  (forall c g, groupby_dfs !! c = Some g -> c ∈ pd.columns df).
Proof.
  unfold generate_dataframes_by_jql.
  next_bind fs. next_bind issues. next_bind data.
  fold (groupby_loop (pd.DataFrame_ data) ∅
          (pd.columns (pd.DataFrame_ data))).
  destruct (groupby_loop _ _ _) as [out|] eqn:Eloop; [|discriminate].
  cbn [bind]. intros [= <- <-].
  apply groupby_loop_Ok in Eloop as [Hin Hout]. split.
  - intros c [g [Hg Hc]]%Hin. exists g. repeat split; try assumption.
    intros g' Hg'. rewrite Hc in Hg'. now injection Hg' as <-.
  - intros c g Hg.
    destruct (decide (c ∈ pd.columns (pd.DataFrame_ data))) as [|Hnot];
      [assumption|].
    rewrite (Hout c Hnot), lookup_empty in Hg. discriminate.
Qed.

Lemma two_issues_run :
  generate_dataframes_by_jql two_issues "project = DEMO"
    ["status"; "assignee"] 100
  = Ok (two_issues_df, two_issues_groupby_dfs).
Proof. reflexivity. Qed.

Lemma pipeline_aggregates_consistent_witness :
  exists g, two_issues_groupby_dfs !! "Status" = Some g /\
            generate_groupby_count_dataframe two_issues_df "Status" "Count"
            = Ok g.
Proof.
  destruct (pipeline_aggregates_consistent two_issues "project = DEMO"
              ["status"; "assignee"] 100 two_issues_df two_issues_groupby_dfs
              eq_refl) as [Hin _].
  destruct (Hin "Status") as (g & Hg & Hc & _).
  - apply list_elem_of_here.
  - exists g. now split.
Defined.

Lemma row_of_Raise (m : gmap string JIRA.field) items row e :
  row_of m items row = Raise e ->
  (exists k v, (k, v) ∈ items /\ m !! k = None /\ e = KeyError k) \/
  (exists k v, (k, v) ∈ items /\ extract_value v = Raise e).
Proof.
  revert row. induction items as [|[k v] rest IH]; intros row; cbn;
    [discriminate|].
  destruct (m !! k) as [f|] eqn:Ek; cbn.
  - destruct (extract_value v) as [x|e'] eqn:Ev; cbn.
    + intros [(k' & v' & ? & ?)|(k' & v' & ? & ?)]%IH;
        [left|right]; exists k', v'; split; try assumption; now right.
    + intros [= ->]. right. exists k, v. split; [left|assumption].
  - intros [= <-]. left. exists k, v. repeat split; [left|assumption].
Qed.

Lemma row_of_unknown (m : gmap string JIRA.field) items row (k : string) v :
  (k, v) ∈ items -> m !! k = None -> exists e, row_of m items row = Raise e.
Proof.
  intros Hin Hk. revert row.
  induction items as [|[k' v'] rest IH]; intros row; [inversion Hin|].
  cbn. destruct (m !! k') as [f|] eqn:Ek'; cbn; [|eauto].
  destruct (extract_value v') as [x|e']; cbn; [|eauto].
  apply IH. apply elem_of_cons in Hin as [[= -> ->]|]; [congruence|assumption].
Qed.

Lemma tabulate_Raise (m : gmap string JIRA.field) issues e :
  tabulate m issues = Raise e ->
  unknown_field_id m issues e \/ extraction_error issues e.
Proof.
  unfold tabulate, unknown_field_id, extraction_error.
  induction issues as [|issue rest IH]; cbn; [discriminate|].
  destruct (row_of m (JIRA.issue_fields issue) []) as [row|e'] eqn:Er; cbn.
  - destruct (mapM _ rest) as [rows|e'']; cbn; [discriminate|].
    intros [= ->].
    destruct (IH eq_refl) as [(i & k & v & ? & ?)|(i & k & v & ? & ?)];
      [left|right]; exists i, k, v; split; try assumption; now right.
  - intros [= ->].
    destruct (row_of_Raise _ _ _ _ Er) as [(k & v & ? & ?)|(k & v & ? & ?)];
      [left|right]; exists issue, k, v;
      (split; [apply list_elem_of_here | split; assumption]).
Qed.

Lemma tabulate_unknown (m : gmap string JIRA.field) issues issue
    (k : string) v :
  issue ∈ issues -> (k, v) ∈ JIRA.issue_fields issue -> m !! k = None ->
  exists e, tabulate m issues = Raise e.
Proof.
  intros Hin Hkv Hk. unfold tabulate.
  induction issues as [|i rest IH]; [inversion Hin|].
  cbn. destruct (row_of m (JIRA.issue_fields i) []) as [row|e'] eqn:Er;
    cbn; [|eauto].
  apply elem_of_cons in Hin as [->|Hin].
  - destruct (row_of_unknown m _ [] _ _ Hkv Hk) as [e He]. congruence.
  - destruct (IH Hin) as [e ->]. cbn. eauto.
Qed.

(** The two calls of the tracker client have answered: a catalog [fs] and a
    batch [issues]. *)
Section Answered.

Variables (self : JiraReport) (jql : string) (fields : list string)
  (jql_search_limit : Z) (fs : list JIRA.field) (issues : list JIRA.issue).

Hypothesis fields_answer : JIRA.fields (jira_api self) = Ok fs.
Hypothesis search_answer :
  JIRA.search_issues (jira_api self) jql fields jql_search_limit = Ok issues.

Lemma generate_dataframes_by_jql_tabulate e :
  tabulate (fields_by_id fs) issues = Raise e ->
  generate_dataframes_by_jql self jql fields jql_search_limit = Raise e.
Proof.
  intros Ht. unfold generate_dataframes_by_jql.
  rewrite fields_answer. cbn [bind]. rewrite search_answer. cbn [bind].
  unfold tabulate in Ht. now rewrite Ht.
Qed.

(** C9, as the code has it. When the tracker answers and some issue of the
    batch has a field id the catalog does not list, the run raises; the
    exception is the [KeyError] of an id the catalog does not list, or the
    exception of [extract_value] on a field value of the batch; it is the
    [KeyError] whenever every field value of the batch can be extracted. *)
Theorem unknown_field_id_raises (issue : JIRA.issue) (k : string) (v : value) :
  issue ∈ issues -> (k, v) ∈ JIRA.issue_fields issue ->
  k ∉ map JIRA.id fs ->
  exists e,
    generate_dataframes_by_jql self jql fields jql_search_limit = Raise e /\
    ((exists k', e = KeyError k' /\ k' ∉ map JIRA.id fs) \/
     extraction_error issues e) /\
    ((forall i k' v', i ∈ issues -> (k', v') ∈ JIRA.issue_fields i ->
                      is_ok (extract_value v') = true) ->
     exists k', e = KeyError k' /\ k' ∉ map JIRA.id fs).
Proof.
  intros Hin Hkv Hk. apply fields_by_id_None in Hk.
  destruct (tabulate_unknown _ _ _ _ _ Hin Hkv Hk) as [e He].
  exists e. split; [now apply generate_dataframes_by_jql_tabulate|].
  destruct (tabulate_Raise _ _ _ He)
    as [(i & k' & v' & Hi & Hkv' & Hk' & ->)|Hex].
  - apply fields_by_id_None in Hk'. split; [left|]; eauto.
  - split; [now right|]. intros Hall.
    destruct Hex as (i & k' & v' & Hi & Hkv' & Hr).
    specialize (Hall i k' v' Hi Hkv'). rewrite Hr in Hall. discriminate.
Qed.

End Answered.

Lemma unknown_field_id_raises_witness :
  exists e,
    generate_dataframes_by_jql stale_catalog "project = DEMO"
      ["status"; "customfield_10010"] 100 = Raise e /\
    exists k', e = KeyError k' /\
               k' ∉ map JIRA.id [ {| JIRA.id := "status"; JIRA.name := "Status" |} ].
Proof.
  destruct (unknown_field_id_raises stale_catalog "project = DEMO"
              ["status"; "customfield_10010"] 100
              [ {| JIRA.id := "status"; JIRA.name := "Status" |} ]
              [ {| JIRA.issue_fields :=
                     [("status", Dict [("name", Str "Open")]);
                      ("customfield_10010", Str "gold")] |} ]
              eq_refl eq_refl
              {| JIRA.issue_fields :=
                   [("status", Dict [("name", Str "Open")]);
                    ("customfield_10010", Str "gold")] |}
              "customfield_10010" (Str "gold"))
    as (e & He & _ & Hkey).
  - apply list_elem_of_here.
  - apply list_elem_of_further, list_elem_of_here.
  - intros [[=]|H]%elem_of_cons. inversion H.
  - exists e. split; [exact He|]. apply Hkey.
    intros i k' v' ->%list_elem_of_singleton Hkv.
    apply elem_of_cons in Hkv as [[= -> ->]|Hkv]; [reflexivity|].
    apply list_elem_of_singleton in Hkv as [= -> ->]. reflexivity.
Defined.

(** C9, as the spec states it, fails: the issue below references the id
    [customfield_10010], which the catalog does not have, and the run raises
    the unsupported-shape exception of the [watches] value met before it, not
    the [KeyError]. *)
Lemma unknown_field_id_counterexample :
  let watches := Dict [("watchCount", Int 0); ("isWatching", Bool false)] in
  let self :=
    {| jira_api :=
         {| JIRA.fields :=
              Ok [ {| JIRA.id := "watches"; JIRA.name := "Watchers" |} ];
            JIRA.search_issues := fun _ _ _ =>
              Ok [ {| JIRA.issue_fields :=
                        [("watches", watches);
                         ("customfield_10010", Str "gold")] |} ] |} |} in
  generate_dataframes_by_jql self "project = DEMO"
    ["watches"; "customfield_10010"] 100
  = Raise (UnsupportedField watches) /\
  generate_dataframes_by_jql self "project = DEMO"
    ["watches"; "customfield_10010"] 100
  <> Raise (KeyError "customfield_10010").
Proof. split; [reflexivity | discriminate]. Qed.

End Pipeline.

(** * Further properties of [extract_value] *)

Section ExtractErrors.

Implicit Types (field v r : value) (d : dict) (items : list value) (e : exn).

(** Induction on a value that reaches the items of a list and the entries of
    a dict. *)
Lemma value_nested_ind (P : value -> Prop) :
  P None_ -> (forall b, P (Bool b)) -> (forall z, P (Int z)) ->
  (forall f, P (Float f)) -> (forall s, P (Str s)) ->
  (forall items, Forall P items -> P (List items)) ->
  (forall d, Forall (fun kv => P kv.2) d -> P (Dict d)) ->
  forall v, P v.
Proof.
  intros HN HB HI HF HS HL HD. fix IH 1.
  intros [|b|z|f|s|items|d];
    [exact HN | apply HB | apply HI | apply HF | apply HS | |].
  - apply HL. induction items as [|x items IHitems]; constructor;
      [apply IH | exact IHitems].
  - apply HD. induction d as [|[k x] d IHd]; constructor;
      [apply IH | exact IHd].
Qed.

Lemma mapM_app {A B} (f : A -> result B) (l1 l2 : list A) :
  mapM f (l1 ++ l2) =
  let* ys1 := mapM f l1 in let* ys2 := mapM f l2 in Ok (ys1 ++ ys2)%list.
Proof.
  induction l1 as [|x l1 IH]; cbn.
  - now destruct (mapM f l2).
  - destruct (f x); cbn; [|reflexivity]. rewrite IH.
    destruct (mapM f l1); cbn; [|reflexivity].
    now destruct (mapM f l2).
Qed.

Lemma mapM_all_ok {A B} (f : A -> result B) (l : list A) :
  Forall (fun x => is_ok (f x) = true) l -> exists ys, mapM f l = Ok ys.
Proof.
  induction 1 as [|x l Hx _ [ys IH]]; [now exists []|].
  cbn. destruct (f x) as [y|]; [|discriminate]. cbn. rewrite IH. cbn. eauto.
Qed.

(** The first item that raises decides the exception of the loop. *)
Lemma mapM_first_error {A B} (f : A -> result B) (l1 l2 : list A) x e :
  Forall (fun y => is_ok (f y) = true) l1 -> f x = Raise e ->
  mapM f (l1 ++ x :: l2) = Raise e.
Proof.
  intros [ys Hys]%mapM_all_ok Hx. rewrite mapM_app, Hys. cbn. now rewrite Hx.
Qed.

Lemma mapM_Raise {A B} (f : A -> result B) (l : list A) e :
  mapM f l = Raise e ->
  exists l1 x l2, l = (l1 ++ x :: l2)%list /\
                  Forall (fun y => is_ok (f y) = true) l1 /\ f x = Raise e.
Proof.
  induction l as [|x l IH]; cbn; [discriminate|].
  destruct (f x) as [y|e'] eqn:Ex; cbn.
  - destruct (mapM f l) as [ys|e'']; cbn; [discriminate|].
    intros [= ->]. destruct (IH eq_refl) as (l1 & x' & l2 & -> & Hl1 & Hx').
    exists (x :: l1), x', l2. repeat split; [|assumption].
    constructor; [now rewrite Ex | assumption].
  - intros [= ->]. exists [], x, l. repeat split; [constructor | assumption].
Qed.

Lemma expect_strs_app i (ss : list string) (rest : list value) :
  expect_strs i (map Str ss ++ rest) =
  let* ts := expect_strs (i + length ss) rest in Ok (ss ++ ts)%list.
Proof.
  revert i. induction ss as [|s ss IH]; intros i; cbn.
  - rewrite Nat.add_0_r. now destruct (expect_strs i rest).
  - rewrite IH. replace (S i + length ss) with (i + S (length ss)) by lia.
    now destruct (expect_strs (i + S (length ss)) rest).
Qed.

Lemma expect_strs_Raise i (vs : list value) e :
  expect_strs i vs = Raise e ->
  exists (ss : list string) v rest,
    vs = (map Str ss ++ v :: rest)%list /\ type v <> str_ /\
    e = JoinTypeError (i + length ss) v.
Proof.
  revert i. induction vs as [|v vs IH]; intros i; cbn; [discriminate|].
  destruct v as [|b|z|f|s|items|d];
    try (intros [= <-]; eexists [], _, vs; cbn; rewrite Nat.add_0_r;
         repeat split; discriminate).
  destruct (expect_strs (S i) vs) as [ts|e'] eqn:E; cbn; [discriminate|].
  intros [= ->]. destruct (IH _ E) as (ss & v & rest & -> & Hv & ->).
  exists (s :: ss), v, rest. cbn. repeat split; [assumption|].
  f_equal. lia.
Qed.

(** X1. Whatever [extract_value] raises is one of two exceptions: the
    unsupported-shape exception, which carries the innermost offending value
    (never an enclosing list), or the [TypeError] of [str.join], which carries
    a value that is not a string. It never raises a [KeyError]. *)
Theorem extract_value_raises field e :
  extract_value field = Raise e ->
  (exists v, e = UnsupportedField v /\ type v <> list_ /\
             extract_value v = Raise (UnsupportedField v)) \/
  (exists i v, e = JoinTypeError i v /\ type v <> str_).
Proof.
  revert e. induction field as [|b|z|f|s|items IH|d _] using value_nested_ind;
    intros e; try discriminate.
  - intros [= <-]. left. exists (Bool b). repeat split. discriminate.
  - rewrite extract_value_List.
    destruct (mapM extract_value items) as [vs|e'] eqn:Evs; cbn [bind].
    + unfold str_join.
      destruct (expect_strs 0 vs) as [ss|e'] eqn:Ess; cbn [bind];
        [discriminate|].
      intros [= ->].
      destruct (expect_strs_Raise _ _ _ Ess) as (ss & v & rest & _ & Hv & ->).
      right. eauto.
    + intros [= ->].
      destruct (mapM_Raise _ _ _ Evs) as (l1 & x & l2 & -> & _ & Hx).
      apply Forall_app in IH as [_ IH]. apply Forall_cons in IH as [IH _].
      now apply IH.
  - rewrite extract_value_Dict.
    destruct (truthy (dict_get d "value")) eqn:Hv.
    { destruct (dict_get_truthy _ _ Hv) as [_ ->]. discriminate. }
    destruct (truthy (dict_get d "name")) eqn:Hn.
    { destruct (dict_get_truthy _ _ Hn) as [_ ->]. discriminate. }
    intros [= <-]. left. exists (Dict d). repeat split; [discriminate|].
    now rewrite extract_value_Dict, Hv, Hn.
Qed.

Lemma extract_value_raises_witness :
  (exists v, UnsupportedField (Bool true) = UnsupportedField v /\
             type v <> list_ /\
             extract_value v = Raise (UnsupportedField v)) \/
  (exists i v, UnsupportedField (Bool true) = JoinTypeError i v /\
               type v <> str_).
Proof.
  apply (extract_value_raises (List [Str "a"; List [Bool true]])).
  reflexivity.
Defined.

(** X2. In a list, the exception of the first item that raises is the
    exception of the whole list, whatever the items after it are. *)
Theorem extract_value_list_first_error (l1 l2 : list value) (x : value) e :
  Forall (fun v => is_ok (extract_value v) = true) l1 ->
  extract_value x = Raise e ->
  extract_value (List (l1 ++ x :: l2)) = Raise e.
Proof.
  intros Hl1 Hx. rewrite extract_value_List.
  now rewrite (mapM_first_error _ _ _ _ _ Hl1 Hx).
Qed.

Lemma extract_value_list_first_error_witness :
  extract_value (List ([Str "a"; Int 1] ++ Bool true :: [Dict []]))
  = Raise (UnsupportedField (Bool true)).
Proof.
  apply extract_value_list_first_error.
  - repeat constructor.
  - reflexivity.
Defined.

(** X3. When every item of a list can be extracted, and the first item whose
    extraction is not a string is at position [n] and extracts to [v], the
    list raises the [TypeError] of [str.join] for position [n] and value
    [v]. *)
Theorem extract_value_list_join_TypeError (l1 l2 : list value)
    (ss : list string) (x v : value) :
  Forall2 (fun i s => extract_value i = Ok (Str s)) l1 ss ->
  extract_value x = Ok v -> type v <> str_ ->
  Forall (fun i => is_ok (extract_value i) = true) l2 ->
  extract_value (List (l1 ++ x :: l2)) = Raise (JoinTypeError (length l1) v).
Proof.
  intros Hl1 Hx Hv [vs2 Hl2]%mapM_all_ok.
  assert (mapM extract_value l1 = Ok (map Str ss)) as Hm1.
  { apply mapM_Forall2. clear -Hl1. induction Hl1; constructor; auto. }
  rewrite extract_value_List, mapM_app, Hm1. cbn [bind mapM].
  rewrite Hx, Hl2. cbn [bind]. unfold str_join.
  rewrite expect_strs_app. cbn [Nat.add].
  rewrite <- (Forall2_length _ _ _ Hl1).
  destruct v; try reflexivity. now destruct Hv.
Qed.

Lemma extract_value_list_join_TypeError_witness :
  extract_value (List ([Str "a"; Dict [("name", Str "b")]] ++ Float 1.5
                         :: [Str "c"]))
  = Raise (JoinTypeError 2 (Float 1.5)).
Proof.
  apply (extract_value_list_join_TypeError
           [Str "a"; Dict [("name", Str "b")]] [Str "c"] ["a"; "b"]
           (Float 1.5) (Float 1.5)).
  - repeat constructor.
  - reflexivity.
  - discriminate.
  - repeat constructor.
Defined.

(** X4. A list that has a null, a boolean, an integer or a float among its
    items never extracts: [extract_value] raises on it. *)
Theorem extract_value_list_non_string_item items (x : value) :
  x ∈ items ->
  type_in (type x) [NoneType; bool_; int_; float_] = true ->
  is_ok (extract_value (List items)) = false.
Proof.
  intros Hx Ht.
  destruct (extract_value (List items)) as [r|] eqn:E; [|reflexivity].
  apply extract_value_List_Ok in E as (ss & HF & _).
  apply list_elem_of_lookup in Hx as [i Hi].
  destruct (Forall2_lookup_l _ _ _ _ _ HF Hi) as (s & _ & Hs).
  destruct x; discriminate.
Qed.

Lemma extract_value_list_non_string_item_witness :
  is_ok (extract_value (List [Str "a"; None_])) = false.
Proof.
  apply (extract_value_list_non_string_item _ None_).
  - apply list_elem_of_further, list_elem_of_here.
  - reflexivity.
Defined.

(** X5. On an input that is not a dict, extracting the result again gives the
    same result: what [extract_value] returns for a null, a scalar or a list
    is a fixed point of it. *)
Theorem extract_value_idempotent field r :
  extract_value field = Ok r -> type field <> dict_ ->
  extract_value r = Ok r.
Proof.
  intros Hr Hd. destruct field as [|b|z|f|s|items|d]; try discriminate.
  - now injection Hr as <-.
  - now injection Hr as <-.
  - now injection Hr as <-.
  - now injection Hr as <-.
  - apply extract_value_List_Ok in Hr as (ss & _ & ->). reflexivity.
  - now destruct Hd.
Qed.

Lemma extract_value_idempotent_witness :
  extract_value (Str "a, b") = Ok (Str "a, b").
Proof.
  apply (extract_value_idempotent (List [Str "a"; Dict [("value", Str "b")]]));
    [reflexivity | discriminate].
Defined.

(** X6. A dict extracts to [r] exactly when [r] is truthy and is the
    ['value'] entry, or the ['value'] entry is absent or falsy and [r] is the
    ['name'] entry. No other key of the dict has a say. *)
Theorem extract_value_dict_iff d r :
  extract_value (Dict d) = Ok r <->
  truthy r = true /\
  (dict_lookup d "value" = Some r \/
   (truthy (dict_get d "value") = false /\ dict_lookup d "name" = Some r)).
Proof.
  rewrite extract_value_Dict. split.
  - destruct (truthy (dict_get d "value")) eqn:Hv.
    + destruct (dict_get_truthy _ _ Hv) as [Hl ->]. intros [= <-]. auto.
    + destruct (truthy (dict_get d "name")) eqn:Hn; [|discriminate].
      destruct (dict_get_truthy _ _ Hn) as [Hl ->]. intros [= <-]. auto.
  - intros [Hr [Hv|[Hv Hn]]].
    + rewrite (dict_get_lookup _ _ _ Hv), Hr.
      unfold dict_getitem. now rewrite Hv.
    + rewrite Hv, (dict_get_lookup _ _ _ Hn), Hr.
      unfold dict_getitem. now rewrite Hn.
Qed.

End ExtractErrors.

(** * Properties of the tabulation *)

Section Tabulation.

Implicit Types (d row : dict) (k c : string) (v x : value)
  (m : gmap string JIRA.field) (items : list (string * value))
  (data : list dict).

Lemma dict_lookup_setitem_eq d k v : dict_lookup (dict_setitem d k v) k = Some v.
Proof.
  induction d as [|[k' v'] d IH]; cbn.
  - now rewrite String.eqb_refl.
  - destruct (String.eqb k k') eqn:E; cbn; now rewrite E.
Qed.

Lemma dict_lookup_setitem_ne d k k' v :
  k <> k' -> dict_lookup (dict_setitem d k v) k' = dict_lookup d k'.
Proof.
  intros Hne. induction d as [|[k0 v0] d IH]; cbn.
  - now rewrite (proj2 (String.eqb_neq k' k)) by congruence.
  - destruct (String.eqb k k0) eqn:E; cbn.
    + apply String.eqb_eq in E as <-.
      now rewrite (proj2 (String.eqb_neq k' k)) by congruence.
    + now rewrite IH.
Qed.

Lemma dict_keys_setitem d k v :
  dict_keys (dict_setitem d k v) =
  if bool_decide (k ∈ dict_keys d) then dict_keys d
  else (dict_keys d ++ [k])%list.
Proof.
  unfold dict_keys. induction d as [|[k' v'] d IH]; cbn; [reflexivity|].
  destruct (String.eqb_spec k k') as [->|Hne]; cbn.
  - now rewrite bool_decide_eq_true_2 by left.
  - rewrite IH. case_bool_decide as Hin.
    + now rewrite bool_decide_eq_true_2 by now right.
    + rewrite bool_decide_eq_false_2; [reflexivity|].
      intros [?|?]%elem_of_cons; contradiction.
Qed.

Lemma dict_setitem_NoDup d k v :
  NoDup (dict_keys d) -> NoDup (dict_keys (dict_setitem d k v)).
Proof.
  intros HND. rewrite dict_keys_setitem. case_bool_decide as Hin; [assumption|].
  apply NoDup_app. repeat split; [assumption| |apply NoDup_singleton].
  intros c Hc ->%list_elem_of_singleton. contradiction.
Qed.

Lemma dict_keys_setitem_elem d k v c :
  c ∈ dict_keys (dict_setitem d k v) <-> c ∈ dict_keys d \/ c = k.
Proof.
  rewrite dict_keys_setitem. case_bool_decide as Hin.
  - split; [auto | intros [?| ->]; assumption].
  - rewrite elem_of_app, list_elem_of_singleton. tauto.
Qed.

Lemma dict_lookup_None d k : dict_lookup d k = None <-> k ∉ dict_keys d.
Proof.
  unfold dict_keys. induction d as [|[k' v'] d IH]; cbn.
  - split; [intros _; apply not_elem_of_nil | reflexivity].
  - rewrite not_elem_of_cons. destruct (String.eqb_spec k k') as [->|Hne].
    + split; [discriminate | intros [[] _]; reflexivity].
    + rewrite IH. tauto.
Qed.

(** One step of the dict comprehension, and the comprehension on the items
    that follow. *)
Lemma row_of_cons m k v items row :
  row_of m ((k, v) :: items) row =
  let* f := match m !! k with
            | Some f => Ok f
            | None => Raise (KeyError k)
            end in
  let* x := extract_value v in
  row_of m items (dict_setitem row (JIRA.name f) x).
Proof. reflexivity. Qed.

Lemma row_of_app m (l1 l2 : list (string * value)) row :
  row_of m (l1 ++ l2) row = let* r1 := row_of m l1 row in row_of m l2 r1.
Proof.
  revert row. induction l1 as [|[k v] l1 IH]; intros row; [reflexivity|].
  cbn. destruct (m !! k) as [f|]; cbn; [|reflexivity].
  destruct (extract_value v) as [x|]; cbn; [|reflexivity]. apply IH.
Qed.

Lemma row_of_keys_from m items row0 row :
  row_of m items row0 = Ok row ->
  (NoDup (dict_keys row0) -> NoDup (dict_keys row)) /\
  forall c, c ∈ dict_keys row <->
            c ∈ dict_keys row0 \/
            exists k v f, (k, v) ∈ items /\ m !! k = Some f /\ JIRA.name f = c.
Proof.
  revert row0. induction items as [|[k v] items IH]; intros row0.
  - cbn. intros [= <-]. split; [auto|]. intros c. split; [auto|].
    intros [?|(k & v & f & H & _)]; [assumption | inversion H].
  - rewrite row_of_cons. destruct (m !! k) as [f|] eqn:Ek; [|discriminate].
    cbn [bind]. destruct (extract_value v) as [x|] eqn:Ev; [|discriminate].
    cbn [bind]. intros [HND Hin]%IH. split.
    + intros H0. now apply HND, dict_setitem_NoDup.
    + intros c. rewrite Hin, dict_keys_setitem_elem. split.
      * intros [[?| ->]|(k' & v' & f' & H & ?)]; [now left| |].
        -- right. exists k, v, f. repeat split; [left|assumption].
        -- right. exists k', v', f'. split; [now right|assumption].
      * intros [?|(k' & v' & f' & H & Hk' & Hc)]; [now left; left|].
        apply elem_of_cons in H as [[= -> ->]|H].
        -- left. right. congruence.
        -- right. exists k', v', f'. auto.
Qed.

(** The items whose display name is not [c] leave the entry of [c] alone. *)
Lemma row_of_lookup_other m items row0 row c :
  row_of m items row0 = Ok row ->
  (forall k v f, (k, v) ∈ items -> m !! k = Some f -> JIRA.name f <> c) ->
  dict_lookup row c = dict_lookup row0 c.
Proof.
  revert row0. induction items as [|[k v] items IH]; intros row0.
  - cbn. now intros [= <-].
  - rewrite row_of_cons. destruct (m !! k) as [f|] eqn:Ek; [|discriminate].
    cbn [bind]. destruct (extract_value v) as [x|] eqn:Ev; [|discriminate].
    cbn [bind]. intros Hrow Hother. rewrite (IH _ Hrow).
    + apply dict_lookup_setitem_ne. apply (Hother k v f); [left|assumption].
    + intros k' v' f' H. apply (Hother k' v' f'). now right.
Qed.

(** X7. The row built for an issue has no label twice, and its labels are
    exactly the display names of the field ids of the issue. *)
Theorem row_of_labels m items row :
  row_of m items [] = Ok row ->
  NoDup (dict_keys row) /\
  forall c, c ∈ dict_keys row <->
            exists k v f, (k, v) ∈ items /\ m !! k = Some f /\ JIRA.name f = c.
Proof.
  intros [HND Hin]%row_of_keys_from. split; [apply HND; constructor|].
  intros c. rewrite Hin. split; [|auto].
  intros [H|H]; [inversion H | assumption].
Qed.

(** X8. The entry of a label in the row is the extraction of the last item of
    the issue with that display name: an item whose display name no later
    item has ends up in the row, extracted; one that shares its display name
    with a later item is overwritten. *)
Theorem row_of_last_wins m (l1 l2 : list (string * value)) k v
    (f : JIRA.field) row :
  row_of m (l1 ++ (k, v) :: l2) [] = Ok row ->
  m !! k = Some f ->
  (forall k' v' f', (k', v') ∈ l2 -> m !! k' = Some f' ->
                    JIRA.name f' <> JIRA.name f) ->
  exists x, extract_value v = Ok x /\ dict_lookup row (JIRA.name f) = Some x.
Proof.
  rewrite row_of_app. destruct (row_of m l1 []) as [r1|]; [|discriminate].
  cbn [bind]. rewrite row_of_cons. intros Hrow Hk Hlater.
  rewrite Hk in Hrow. cbn [bind] in Hrow.
  destruct (extract_value v) as [x|]; [|discriminate]. cbn [bind] in Hrow.
  exists x. split; [reflexivity|].
  rewrite (row_of_lookup_other _ _ _ _ _ Hrow Hlater).
  apply dict_lookup_setitem_eq.
Qed.

Lemma row_of_labels_witness :
  NoDup (dict_keys [("Tier", Str "gold"); ("Status", Str "Open")]) /\
  forall c, c ∈ dict_keys [("Tier", Str "gold"); ("Status", Str "Open")] <->
            exists k v f, (k, v) ∈ tier_issue /\
                          fields_by_id tier_catalog !! k = Some f /\
                          JIRA.name f = c.
Proof.
  apply (row_of_labels (fields_by_id tier_catalog) tier_issue). reflexivity.
Defined.

Lemma row_of_last_wins_witness :
  exists x, extract_value (Str "gold") = Ok x /\
            dict_lookup [("Tier", Str "gold"); ("Status", Str "Open")] "Tier"
            = Some x.
Proof.
  apply (row_of_last_wins (fields_by_id tier_catalog)
           [("customfield_1", Str "silver")]
           [("status", Dict [("name", Str "Open")])]
           "customfield_2" (Str "gold")
           {| JIRA.id := "customfield_2"; JIRA.name := "Tier" |}).
  - reflexivity.
  - reflexivity.
  - intros k' v' f' [= -> ->]%list_elem_of_singleton Hf.
    vm_compute in Hf. injection Hf as <-. discriminate.
Defined.

End Tabulation.

(** * Properties of a run *)

Section Frame.

Implicit Types (data : list dict) (cols : list string) (c : string).

Lemma add_label_elem cols (k c : string) :
  c ∈ pd.add_label cols k <-> c ∈ cols \/ c = k.
Proof.
  unfold pd.add_label. case_bool_decide as Hin.
  - split; [auto | intros [?| ->]; assumption].
  - rewrite elem_of_app, list_elem_of_singleton. tauto.
Qed.

Lemma add_label_NoDup cols (k : string) :
  NoDup cols -> NoDup (pd.add_label cols k).
Proof.
  intros HND. unfold pd.add_label. case_bool_decide as Hin; [assumption|].
  apply NoDup_app. repeat split; [assumption| |apply NoDup_singleton].
  intros c Hc ->%list_elem_of_singleton. contradiction.
Qed.

Lemma add_labels cols (ks : list string) :
  (NoDup cols -> NoDup (foldl pd.add_label cols ks)) /\
  forall c, c ∈ foldl pd.add_label cols ks <-> c ∈ cols \/ c ∈ ks.
Proof.
  revert cols. induction ks as [|k ks IH]; intros cols; cbn.
  - split; [auto|]. intros c. rewrite elem_of_nil. tauto.
  - destruct (IH (pd.add_label cols k)) as [HND Hin]. split.
    + intros H. now apply HND, add_label_NoDup.
    + intros c. rewrite Hin, add_label_elem, elem_of_cons. tauto.
Qed.

Lemma columns_from cols data :
  let cols' :=
    foldl (fun cols r => foldl pd.add_label cols (dict_keys r)) cols data in
  (NoDup cols -> NoDup cols') /\
  forall c, c ∈ cols' <-> c ∈ cols \/ exists r, r ∈ data /\ c ∈ dict_keys r.
Proof.
  revert cols. induction data as [|r data IH]; intros cols; cbn.
  - split; [auto|]. intros c. split; [auto|].
    intros [?|(r & H & _)]; [assumption | inversion H].
  - destruct (IH (foldl pd.add_label cols (dict_keys r))) as [HND Hin].
    destruct (add_labels cols (dict_keys r)) as [HND' Hin']. split.
    + auto.
    + intros c. rewrite Hin, Hin'. split.
      * intros [[?|?]|(r' & ? & ?)]; [now left| |].
        -- right. exists r. split; [left|assumption].
        -- right. exists r'. split; [now right|assumption].
      * intros [?|(r' & [->|?]%elem_of_cons & ?)]; [now left; left| |].
        -- left. now right.
        -- right. eauto.
Qed.

(** The labels of [DataFrame(data)]: every key of every dict, once. *)
Lemma DataFrame_columns data :
  NoDup (pd.columns (pd.DataFrame_ data)) /\
  forall c, c ∈ pd.columns (pd.DataFrame_ data) <->
            exists r, r ∈ data /\ c ∈ dict_keys r.
Proof.
  destruct (columns_from [] data) as [HND Hin]. split.
  - apply HND. constructor.
  - intros c. cbn. rewrite (Hin c), elem_of_nil. tauto.
Qed.

End Frame.

Section Run.

Variables (self : JiraReport) (jql : string) (fields : list string)
  (jql_search_limit : Z) (fs : list JIRA.field) (issues : list JIRA.issue).

Hypothesis fields_answer : JIRA.fields (jira_api self) = Ok fs.
Hypothesis search_answer :
  JIRA.search_issues (jira_api self) jql fields jql_search_limit = Ok issues.

Implicit Types (df : pd.DataFrame) (g : gmap string pd.DataFrame)
  (data : list dict) (e : exn).

(** The run, once the tracker has answered: the tabulation, the frame of its
    rows, the loop over the columns of that frame. *)
Lemma generate_dataframes_by_jql_answered :
  generate_dataframes_by_jql self jql fields jql_search_limit =
  let* data := tabulate (fields_by_id fs) issues in
  let* groupby_dfs :=
    groupby_loop (pd.DataFrame_ data) ∅ (pd.columns (pd.DataFrame_ data)) in
  Ok (pd.DataFrame_ data, groupby_dfs).
Proof.
  unfold generate_dataframes_by_jql.
  rewrite fields_answer. cbn [bind]. now rewrite search_answer.
Qed.

Lemma generate_dataframes_by_jql_Ok df g :
  generate_dataframes_by_jql self jql fields jql_search_limit = Ok (df, g) <->
  exists data, tabulate (fields_by_id fs) issues = Ok data /\
               df = pd.DataFrame_ data /\
               groupby_loop df ∅ (pd.columns df) = Ok g.
Proof.
  rewrite generate_dataframes_by_jql_answered. split.
  - destruct (tabulate _ _) as [data|]; [|discriminate]. cbn [bind].
    destruct (groupby_loop _ _ _) as [out|] eqn:E; [|discriminate].
    cbn [bind]. intros [= <- <-]. eauto.
  - intros (data & Ht & -> & Hl). rewrite Ht. cbn [bind]. now rewrite Hl.
Qed.

Lemma tabulate_rows (m : gmap string JIRA.field) data :
  tabulate m issues = Ok data <->
  Forall2 (fun issue row => row_of m (JIRA.issue_fields issue) [] = Ok row)
          issues data.
Proof. unfold tabulate. apply mapM_Forall2. Qed.


(** X10. The columns of the frame of a run that returns are the display
    names of the field ids of the batch, each once. *)
Theorem run_columns df g :
  generate_dataframes_by_jql self jql fields jql_search_limit = Ok (df, g) ->
  NoDup (pd.columns df) /\
  forall c, c ∈ pd.columns df <->
            exists issue k v f,
              issue ∈ issues /\ (k, v) ∈ JIRA.issue_fields issue /\
              fields_by_id fs !! k = Some f /\ JIRA.name f = c.
Proof.
  intros (data & Ht%tabulate_rows & -> & _)%generate_dataframes_by_jql_Ok.
  destruct (DataFrame_columns data) as [HND Hin]. split; [assumption|].
  intros c. rewrite Hin. split.
  - intros (row & Hrow & Hc).
    apply list_elem_of_lookup in Hrow as [i Hi].
    destruct (Forall2_lookup_r _ _ _ _ _ Ht Hi) as (issue & Hissue & Hr).
    apply row_of_keys_from in Hr as [_ Hkeys].
    destruct (proj1 (Hkeys c) Hc) as [Hnil|(k & v & f & ? & ? & ?)];
      [inversion Hnil|].
    exists issue, k, v, f. split; [|auto].
    apply list_elem_of_lookup. eauto.
  - intros (issue & k & v & f & Hissue & Hkv & Hk & Hc).
    apply list_elem_of_lookup in Hissue as [i Hi].
    destruct (Forall2_lookup_l _ _ _ _ _ Ht Hi) as (row & Hrow & Hr).
    exists row. split; [apply list_elem_of_lookup; eauto|].
    apply row_of_keys_from in Hr as [_ Hkeys].
    apply (Hkeys c). right. exists k, v, f. auto.
Qed.

(** X11. An issue none of whose field ids has the display name [c] has a
    missing cell under [c]: the i-th cell of the column is missing, not a
    default value. *)
Theorem run_missing_cell df g (i : nat) (issue : JIRA.issue) (c : string) :
  generate_dataframes_by_jql self jql fields jql_search_limit = Ok (df, g) ->
  issues !! i = Some issue ->
  (forall k v f, (k, v) ∈ JIRA.issue_fields issue ->
                 fields_by_id fs !! k = Some f -> JIRA.name f <> c) ->
  pd.column df c !! i = Some None /\ pd.isna None = true.
Proof.
  intros (data & Ht%tabulate_rows & -> & _)%generate_dataframes_by_jql_Ok
    Hi Hother.
  destruct (Forall2_lookup_l _ _ _ _ _ Ht Hi) as (row & Hrow & Hr).
  split; [|reflexivity].
  unfold pd.column. cbn [pd.rows pd.DataFrame_].
  rewrite list_lookup_fmap, Hrow. cbn. f_equal.
  now rewrite (row_of_lookup_other _ _ _ _ _ Hr Hother).
Qed.

End Run.

(** * Further properties of the group-by count *)

Section GroupByErrors.

Import pd.

Implicit Types (df g : DataFrame) (c : option value) (v : value)
  (cells : list (option value)) (e : exn).

Lemma hash_cell_Unhashable c v :
  hash_cell c = Unhashable v ->
  c = Some v /\ (type v = list_ \/ type v = dict_).
Proof.
  unfold hash_cell. destruct (isna c) eqn:E; [discriminate|].
  destruct c as [[| | |f| | |]|]; try discriminate;
    try (intros [= <-]; auto).
  destruct (Prim2SF f); discriminate.
Qed.

Lemma group_keys_Raise cells e :
  group_keys cells = Raise e ->
  exists v, e = UnhashableType v /\ Some v ∈ cells /\
            hashable (Some v) = false /\ (type v = list_ \/ type v = dict_).
Proof.
  induction cells as [|c cells IH]; cbn; [discriminate|].
  destruct (hash_cell c) as [|u|k v] eqn:E.
  - intros (v & ? & ? & ?)%IH. exists v. split; [assumption|].
    split; [now right | assumption].
  - intros [= <-]. destruct (hash_cell_Unhashable _ _ E) as [-> Ht].
    exists u. repeat split; [left| |assumption].
    unfold hashable. now rewrite E.
  - destruct (group_keys cells) as [ks|e'] eqn:Eks; cbn; [discriminate|].
    intros [= ->]. destruct (IH eq_refl) as (v' & ? & ? & ?).
    exists v'. split; [assumption|]. split; [now right | assumption].
Qed.

Lemma group_keys_Ok_hashable cells (ks : list (key * value)) :
  group_keys cells = Ok ks -> Forall (fun c => hashable c = true) cells.
Proof.
  revert ks. induction cells as [|c cells IH]; intros ks; [constructor|].
  cbn. destruct (hash_cell c) as [|u|k v] eqn:E; [|discriminate|].
  - intros H. constructor; [unfold hashable; now rewrite E | eauto].
  - destruct (group_keys cells) as [ks'|]; [|discriminate].
    intros _. constructor; [unfold hashable; now rewrite E | eauto].
Qed.

(** What the call raises, and when: the column is looked up first, the cells
    are hashed next, the count column is inserted last. *)
Lemma generate_groupby_count_dataframe_Raise df
    (groupby count_column_name : string) e :
  generate_groupby_count_dataframe df groupby count_column_name = Raise e ->
  ((groupby ∉ columns df) /\ e = KeyError groupby) \/
  ((groupby ∈ columns df) /\
   exists v, e = UnhashableType v /\ Some v ∈ column df groupby /\
             hashable (Some v) = false /\
             (type v = list_ \/ type v = dict_)) \/
  ((groupby ∈ columns df) /\
   Forall (fun c => hashable c = true) (column df groupby) /\
   groupby = count_column_name /\ e = CannotInsert groupby).
Proof.
  unfold generate_groupby_count_dataframe, groupby_size.
  case_bool_decide as Hin; cbn [bind]; [|intros [= <-]; auto].
  destruct (group_keys (column df groupby)) as [ks|e'] eqn:Eks; cbn [bind].
  - unfold reset_index. cbn [index_name].
    destruct (String.eqb_spec groupby count_column_name) as [Heq|Hne];
      [|discriminate].
    intros [= <-]. right. right. repeat split; try assumption.
    eapply group_keys_Ok_hashable. eassumption.
  - intros [= ->]. right. left. split; [assumption|].
    now apply group_keys_Raise.
Qed.

Lemma generate_groupby_count_dataframe_Ok_inv df
    (groupby count_column_name : string) g :
  generate_groupby_count_dataframe df groupby count_column_name = Ok g ->
  (groupby ∈ columns df) /\
  Forall (fun c => hashable c = true) (column df groupby) /\
  groupby <> count_column_name.
Proof.
  unfold generate_groupby_count_dataframe, groupby_size.
  case_bool_decide as Hin; [|discriminate]. cbn [bind].
  destruct (group_keys (column df groupby)) as [ks|] eqn:Eks; [|discriminate].
  cbn [bind]. unfold reset_index. cbn [index_name].
  destruct (String.eqb_spec groupby count_column_name) as [Heq|Hne];
    [discriminate|].
  intros _. repeat split; [assumption| |assumption].
  eapply group_keys_Ok_hashable. eassumption.
Qed.

(** X12. The call returns exactly when the frame has the column, no cell of
    the column holds a list or a dict, and the column is not labelled like
    the count column. *)
Theorem generate_groupby_count_dataframe_returns df
    (groupby count_column_name : string) :
  is_ok (generate_groupby_count_dataframe df groupby count_column_name) = true
  <->
  (groupby ∈ columns df) /\
  Forall (fun c => hashable c = true) (column df groupby) /\
  groupby <> count_column_name.
Proof.
  split.
  - destruct (generate_groupby_count_dataframe _ _ _) as [g|e] eqn:E;
      [intros _|discriminate].
    eapply generate_groupby_count_dataframe_Ok_inv. eassumption.
  - intros (Hin & Hh & Hne).
    now rewrite (generate_groupby_count_dataframe_hashable _ _ _ Hin Hne Hh).
Qed.

(** The frame the call returns, when it returns. *)
Lemma generate_groupby_count_dataframe_Ok df
    (groupby count_column_name : string) g :
  generate_groupby_count_dataframe df groupby count_column_name = Ok g ->
  groupby <> count_column_name /\
  Forall (fun c => hashable c = true) (column df groupby) /\
  g = counted groupby count_column_name
        (group_sizes (omap key_value (column df groupby))).
Proof.
  intros Hg.
  destruct (generate_groupby_count_dataframe_Ok_inv _ _ _ _ Hg)
    as (Hin & Hh & Hne).
  rewrite (generate_groupby_count_dataframe_hashable _ _ _ Hin Hne Hh) in Hg.
  injection Hg as <-. auto.
Qed.

(** X13. Every count of the frame the call returns is an integer between 1
    and the number of rows of the grouped frame: no group is empty. *)
Theorem groupby_count_bounds df (groupby count_column_name : string) g v
    (n : value) :
  generate_groupby_count_dataframe df groupby count_column_name = Ok g ->
  (v, n) ∈ pairs g ->
  exists z, n = Int z /\ (1 <= z <= Z.of_nat (length (rows df)))%Z.
Proof.
  intros (Hne & _ & ->)%generate_groupby_count_dataframe_Ok.
  rewrite (pairs_counted _ _ _ Hne).
  intros ([[k v'] m] & [= -> ->] & Hg)%list_elem_of_fmap.
  apply group_sizes_cells in Hg as (Hv & _ & Hk & ->).
  eexists. split; [reflexivity|].
  pose proof (length_filter (fun c => cell_key c = Some k)
                (column df groupby)) as Hle.
  assert (Some v' ∈ filter (fun c => cell_key c = Some k)
                           (column df groupby)) as Hmem
    by (apply list_elem_of_filter; auto).
  unfold column in Hle at 2. rewrite length_map in Hle.
  destruct (filter _ (column df groupby)); [inversion Hmem|].
  cbn [length] in *. lia.
Qed.

(** X14. A column all of whose cells are missing gives a frame with the two
    columns and no row; the call does not raise. *)
Theorem groupby_count_all_missing df (groupby count_column_name : string) :
  groupby ∈ columns df ->
  groupby <> count_column_name ->
  Forall (fun c => isna c = true) (column df groupby) ->
  generate_groupby_count_dataframe df groupby count_column_name
  = Ok {| columns := [groupby; count_column_name]; rows := [] |}.
Proof.
  intros Hin Hne Hna.
  assert (Forall (fun c => hashable c = true) (column df groupby)) as Hh.
  { eapply Forall_impl; [exact Hna|]. intros c Hc%hash_cell_NA.
    unfold hashable. now rewrite Hc. }
  rewrite (generate_groupby_count_dataframe_hashable _ _ _ Hin Hne Hh).
  assert (omap key_value (column df groupby) = []) as ->; [|reflexivity].
  induction Hna as [|c cells Hc _ IH]; [reflexivity|].
  apply Forall_cons in Hh as [Hhc Hh]. cbn [omap list_omap].
  rewrite (proj2 (key_value_None _ Hhc) Hc). auto.
Qed.

Lemma key_counts_elem (ks : list (key * value)) (k : key) (n : nat) :
  (k, n) ∈ key_counts ks <-> n = length (rows_of_key k ks) /\ 0 < n.
Proof.
  unfold key_counts. rewrite list_elem_of_fmap. split.
  - intros ([[k' v] m] & [= -> ->] & Hg%group_sizes_elem).
    unfold group_spec in Hg.
    destruct (rows_of_key k' ks) as [|[k0 v0] l]; [discriminate|].
    injection Hg as _ <-. cbn. split; [reflexivity | lia].
  - intros [-> Hpos].
    destruct (rows_of_key k ks) as [|[k0 v0] l] eqn:E; [cbn in Hpos; lia|].
    exists (k, v0, length (rows_of_key k ks)). split; [now rewrite E|].
    apply group_sizes_elem. unfold group_spec. now rewrite E.
Qed.

Lemma key_counts_NoDup (ks : list (key * value)) : NoDup (key_counts ks).
Proof.
  apply (NoDup_fmap_1 fst). unfold key_counts.
  rewrite <- list_fmap_compose. apply group_sizes_NoDup.
Qed.

Lemma key_counts_Permutation (ks ks' : list (key * value)) :
  ks ≡ₚ ks' -> key_counts ks ≡ₚ key_counts ks'.
Proof.
  intros Hp. apply NoDup_Permutation; try apply key_counts_NoDup.
  intros [k n]. rewrite !key_counts_elem.
  unfold rows_of_key. now rewrite Hp.
Qed.

Lemma pairs_key_counts (groupby count_column_name : string) cells :
  groupby <> count_column_name ->
  map (fun p => (cell_key (Some p.1), p.2))
      (pairs (counted groupby count_column_name
                (group_sizes (omap key_value cells))))
  = map (fun kn => (Some kn.1, Int (Z.of_nat kn.2)))
        (key_counts (omap key_value cells)).
Proof.
  intros Hne. rewrite (pairs_counted _ _ _ Hne). unfold key_counts.
  rewrite !map_map. apply map_ext_in. intros [[k v] n] Hg%list_elem_of_In.
  apply group_sizes_cells in Hg as (_ & _ & Hk & _). cbn. now rewrite Hk.
Qed.

(** X15. The groups do not depend on the order of the rows: on two frames
    with the same columns and the same rows in another order, the call
    returns on both or on neither, and the (key, count) pairs of the two
    results are the same up to their order. *)
Theorem groupby_count_row_order df df' (groupby count_column_name : string)
    g :
  rows df ≡ₚ rows df' ->
  columns df = columns df' ->
  generate_groupby_count_dataframe df groupby count_column_name = Ok g ->
  exists g',
    generate_groupby_count_dataframe df' groupby count_column_name = Ok g' /\
    map (fun p => (cell_key (Some p.1), p.2)) (pairs g)
    ≡ₚ map (fun p => (cell_key (Some p.1), p.2)) (pairs g').
Proof.
  intros Hrows Hcols Hg.
  assert (column df groupby ≡ₚ column df' groupby) as Hcells
    by (unfold column; now apply Permutation_map).
  destruct (generate_groupby_count_dataframe_Ok_inv _ _ _ _ Hg)
    as (Hin & Hh & Hne).
  apply generate_groupby_count_dataframe_Ok in Hg as (_ & _ & ->).
  rewrite Hcols in Hin. rewrite Hcells in Hh.
  eexists. split;
    [now apply generate_groupby_count_dataframe_hashable|].
  rewrite !pairs_key_counts by assumption.
  apply Permutation_map, key_counts_Permutation. now rewrite Hcells.
Qed.

End GroupByErrors.

(** * When a run returns and what it raises *)

Section Outcome.

Implicit Types (m : gmap string JIRA.field) (items : list (string * value))
  (row : dict) (df : pd.DataFrame) (g : gmap string pd.DataFrame) (e : exn).

Lemma groupby_loop_Raise df (cols : list string)
    (acc : gmap string pd.DataFrame) e :
  groupby_loop df acc cols = Raise e ->
  exists c, c ∈ cols /\
            generate_groupby_count_dataframe df c "Count" = Raise e.
Proof.
  unfold groupby_loop. revert acc.
  induction cols as [|i cols IH]; intros acc; cbn; [discriminate|].
  destruct (generate_groupby_count_dataframe df i "Count") as [a|e'] eqn:Ea;
    cbn.
  - intros (c & Hc & He)%IH. exists c. split; [now right|assumption].
  - intros [= ->]. exists i. split; [left|assumption].
Qed.

Lemma groupby_loop_all_ok df (cols : list string)
    (acc : gmap string pd.DataFrame) :
  (forall c, c ∈ cols ->
     is_ok (generate_groupby_count_dataframe df c "Count") = true) ->
  exists out, groupby_loop df acc cols = Ok out.
Proof.
  unfold groupby_loop. revert acc.
  induction cols as [|i cols IH]; intros acc Hall; cbn; [eauto|].
  specialize (Hall i (list_elem_of_here _ _)) as Hi.
  destruct (generate_groupby_count_dataframe df i "Count") as [a|];
    [|discriminate].
  cbn. apply IH. intros c Hc. apply Hall. now right.
Qed.

(** Every entry of a row is the extraction of a field value of the issue. *)
Lemma row_of_entries m items row0 row (c : string) (x : value) :
  row_of m items row0 = Ok row ->
  dict_lookup row c = Some x ->
  dict_lookup row0 c = Some x \/
  exists k v f, (k, v) ∈ items /\ m !! k = Some f /\ JIRA.name f = c /\
                extract_value v = Ok x.
Proof.
  revert row0. induction items as [|[k v] items IH]; intros row0.
  - cbn. intros [= <-]. auto.
  - rewrite row_of_cons. destruct (m !! k) as [f|] eqn:Ek; [|discriminate].
    cbn [bind]. destruct (extract_value v) as [y|] eqn:Ev; [|discriminate].
    cbn [bind]. intros Hrow Hx.
    destruct (IH _ Hrow Hx) as [H0|(k' & v' & f' & Hin & ?)].
    + destruct (decide (JIRA.name f = c)) as [<-|Hne].
      * rewrite dict_lookup_setitem_eq in H0. injection H0 as ->.
        right. exists k, v, f. repeat split; [left|assumption..].
      * rewrite dict_lookup_setitem_ne in H0 by assumption. now left.
    + right. exists k', v', f'. split; [now right|assumption].
Qed.

Lemma row_of_all_ok m items row0 :
  (forall k v, (k, v) ∈ items ->
     is_Some (m !! k) /\ is_ok (extract_value v) = true) ->
  exists row, row_of m items row0 = Ok row.
Proof.
  revert row0. induction items as [|[k v] items IH]; intros row0 Hall;
    [cbn; eauto|].
  rewrite row_of_cons.
  destruct (Hall k v (list_elem_of_here _ _)) as [[f ->] Hv]. cbn [bind].
  destruct (extract_value v) as [x|]; [|discriminate]. cbn [bind].
  apply IH. intros k' v' H. apply Hall. now right.
Qed.

Lemma row_of_Ok_inv m items row0 row (k : string) (v : value) :
  row_of m items row0 = Ok row -> (k, v) ∈ items ->
  is_Some (m !! k) /\ is_ok (extract_value v) = true.
Proof.
  revert row0. induction items as [|[k' v'] items IH]; intros row0;
    [intros _ H; inversion H|].
  rewrite row_of_cons. destruct (m !! k') as [f|] eqn:Ek; [|discriminate].
  cbn [bind]. destruct (extract_value v') as [x|] eqn:Ev; [|discriminate].
  cbn [bind]. intros Hrow [[= -> ->]|Hin]%elem_of_cons.
  - rewrite Ek, Ev. split; [eauto | reflexivity].
  - eauto.
Qed.

Variables (self : JiraReport) (jql : string) (fields : list string)
  (jql_search_limit : Z) (fs : list JIRA.field) (issues : list JIRA.issue).

Hypothesis fields_answer : JIRA.fields (jira_api self) = Ok fs.
Hypothesis search_answer :
  JIRA.search_issues (jira_api self) jql fields jql_search_limit = Ok issues.

(** X16. Once the tracker has answered, a run can raise four things only:
    the [KeyError] of a field id of the batch that the catalog does not
    list, the exception of [extract_value] on a field value of the batch, the
    [TypeError] of a list or dict that ended up in a cell, and the
    [ValueError] of a column labelled [Count]. It never raises the
    [KeyError] of a column the frame does not have. *)
Theorem run_raises e :
  generate_dataframes_by_jql self jql fields jql_search_limit = Raise e ->
  unknown_field_id (fields_by_id fs) issues e \/
  extraction_error issues e \/
  (exists v, e = UnhashableType v /\ (type v = list_ \/ type v = dict_)) \/
  e = CannotInsert "Count".
Proof.
  rewrite (generate_dataframes_by_jql_answered _ _ _ _ _ _
             fields_answer search_answer).
  destruct (tabulate (fields_by_id fs) issues) as [data|e'] eqn:Et;
    cbn [bind].
  - destruct (groupby_loop _ _ _) as [out|e'] eqn:El; cbn [bind];
      [discriminate|].
    intros [= ->].
    destruct (groupby_loop_Raise _ _ _ _ El) as (c & Hc & Hg).
    destruct (generate_groupby_count_dataframe_Raise _ _ _ _ Hg)
      as [[Hnot _]|[(_ & v & -> & _ & _ & Hv)|(_ & _ & -> & ->)]].
    + contradiction.
    + right. right. left. eauto.
    + now repeat right.
  - intros [= ->].
    destruct (tabulate_Raise _ _ _ Et) as [?|?]; auto.
Qed.

(** X17. Once the tracker has answered, the run returns whenever every field
    id of the batch is in the catalog under a display name other than
    [Count] and every field value of the batch extracts to something that is
    not a list or a dict. *)
Theorem run_returns :
  (forall issue k v,
     issue ∈ issues -> (k, v) ∈ JIRA.issue_fields issue ->
     exists f r, fields_by_id fs !! k = Some f /\ JIRA.name f <> "Count" /\
                 extract_value v = Ok r /\ pd.hashable (Some r) = true) ->
  exists df g,
    generate_dataframes_by_jql self jql fields jql_search_limit = Ok (df, g).
Proof.
  intros Hall.
  assert (exists data, tabulate (fields_by_id fs) issues = Ok data)
    as [data Ht].
  { unfold tabulate. apply mapM_all_ok, Forall_forall. intros issue Hissue.
    destruct (row_of_all_ok (fields_by_id fs) (JIRA.issue_fields issue) [])
      as [row ->]; [|reflexivity].
    intros k v Hkv.
    destruct (Hall issue k v Hissue Hkv) as (f & r & -> & _ & -> & _).
    split; [eauto | reflexivity]. }
  pose proof (proj1 (tabulate_rows issues _ _) Ht) as Hrows.
  destruct (groupby_loop_all_ok (pd.DataFrame_ data)
              (pd.columns (pd.DataFrame_ data)) ∅) as [out Hout].
  - intros c Hc.
    enough (Forall (fun cell => pd.hashable cell = true)
                   (pd.column (pd.DataFrame_ data) c) /\ c <> "Count")
      as [Hh Hne]
      by now rewrite (generate_groupby_count_dataframe_hashable _ _ _
                        Hc Hne Hh).
    apply (proj2 (DataFrame_columns data)) in Hc as (row & Hrow & Hkey).
    split.
    + apply Forall_forall. intros cell Hcell.
      apply list_elem_of_fmap in Hcell as (row' & -> & Hrow').
      destruct (dict_lookup row' c) as [x|] eqn:Ex; [|reflexivity].
      apply list_elem_of_lookup in Hrow' as [i Hi].
      destruct (Forall2_lookup_r _ _ _ _ _ Hrows Hi) as (issue & Hissue & Hr).
      destruct (row_of_entries _ _ _ _ _ _ Hr Ex)
        as [Hnil|(k & v & f & Hkv & Hk & _ & Hv)]; [discriminate|].
      destruct (Hall issue k v) as (f' & r & _ & _ & Hv' & Hh);
        [apply list_elem_of_lookup; eauto | assumption |].
      congruence.
    + apply list_elem_of_lookup in Hrow as [i Hi].
      destruct (Forall2_lookup_r _ _ _ _ _ Hrows Hi) as (issue & Hissue & Hr).
      apply row_of_keys_from in Hr as [_ Hkeys].
      destruct (proj1 (Hkeys c) Hkey) as [Hnil|(k & v & f & Hkv & Hk & <-)];
        [inversion Hnil|].
      destruct (Hall issue k v) as (f' & r & Hk' & Hcount & _);
        [apply list_elem_of_lookup; eauto | assumption |].
      congruence.
  - exists (pd.DataFrame_ data), out.
    apply (generate_dataframes_by_jql_Ok _ _ _ _ _ _ fields_answer
             search_answer).
    eauto.
Qed.

(** X18. A run that returns has looked up every field id and extracted every
    field value of the batch, and its frame has no column labelled [Count]
    and no list or dict in a cell. *)
Theorem run_returned df g :
  generate_dataframes_by_jql self jql fields jql_search_limit = Ok (df, g) ->
  ("Count" ∉ pd.columns df) /\
  (forall c, c ∈ pd.columns df ->
     Forall (fun cell => pd.hashable cell = true) (pd.column df c)) /\
  (forall issue k v,
     issue ∈ issues -> (k, v) ∈ JIRA.issue_fields issue ->
     is_Some (fields_by_id fs !! k) /\ is_ok (extract_value v) = true).
Proof.
  intros (data & Ht & -> & Hl)%(generate_dataframes_by_jql_Ok _ _ _ _ _ _
                                  fields_answer search_answer).
  apply groupby_loop_Ok in Hl as [Hin _].
  split; [|split].
  - intros Hc. destruct (Hin _ Hc) as (a & _ & Ha).
    apply generate_groupby_count_dataframe_Ok_inv in Ha as (_ & _ & Hne).
    now destruct Hne.
  - intros c Hc. destruct (Hin _ Hc) as (a & _ & Ha).
    now apply generate_groupby_count_dataframe_Ok_inv in Ha as (_ & Hh & _).
  - intros issue k v Hissue Hkv.
    apply tabulate_rows in Ht.
    apply list_elem_of_lookup in Hissue as [i Hi].
    destruct (Forall2_lookup_l _ _ _ _ _ Ht Hi) as (row & _ & Hr).
    eapply row_of_Ok_inv; eassumption.
Qed.

End Outcome.

(** * The catalog, the empty batch and the samples *)

Section Catalog.

Implicit Types (fs : list JIRA.field) (k : string).

Lemma fields_by_id_snoc fs (f : JIRA.field) :
  fields_by_id (fs ++ [f]) = <[JIRA.id f := f]> (fields_by_id fs).
Proof. unfold fields_by_id. now rewrite foldl_app. Qed.

(** X19. The catalog maps a field id to the last item of [fields()] with
    that id: an id listed twice is displayed under its later name, and an id
    that is not listed has no entry. *)
Theorem fields_by_id_last fs k :
  fields_by_id fs !! k = last (filter (fun f => JIRA.id f = k) fs).
Proof.
  induction fs as [|f fs IH] using rev_ind; [reflexivity|].
  rewrite fields_by_id_snoc, filter_app.
  destruct (decide (JIRA.id f = k)) as [<-|Hne].
  - rewrite lookup_insert_eq, filter_cons_True, filter_nil by reflexivity.
    now rewrite last_snoc.
  - rewrite lookup_insert_ne, filter_cons_False, filter_nil by assumption.
    now rewrite app_nil_r.
Qed.

(** X20. When the search finds no issue the run returns, whatever the
    catalog is: a frame without columns and rows, and no aggregate. *)
Theorem run_empty_batch (self : JiraReport) (jql : string)
    (fields : list string) (jql_search_limit : Z) fs :
  JIRA.fields (jira_api self) = Ok fs ->
  JIRA.search_issues (jira_api self) jql fields jql_search_limit = Ok [] ->
  generate_dataframes_by_jql self jql fields jql_search_limit
  = Ok ({| pd.columns := []; pd.rows := [] |}, ∅).
Proof.
  intros Hfs Hsearch. unfold generate_dataframes_by_jql.
  rewrite Hfs. cbn [bind]. now rewrite Hsearch.
Qed.

Lemma run_empty_batch_witness :
  generate_dataframes_by_jql no_issues "project = DEMO" ["status"] 100
  = Ok ({| pd.columns := []; pd.rows := [] |}, ∅).
Proof.
  apply (run_empty_batch no_issues "project = DEMO" ["status"] 100
           tier_catalog); reflexivity.
Defined.

End Catalog.

Section Samples.


Lemma run_columns_witness :
  NoDup (pd.columns a_then_b_df) /\
  forall c, c ∈ pd.columns a_then_b_df <->
            exists issue k v f,
              issue ∈ [ {| JIRA.issue_fields := [("a", Str "x")] |};
                        {| JIRA.issue_fields := [("b", Str "y")] |} ] /\
              (k, v) ∈ JIRA.issue_fields issue /\
              fields_by_id [ {| JIRA.id := "a"; JIRA.name := "A" |};
                             {| JIRA.id := "b"; JIRA.name := "B" |} ] !! k
              = Some f /\
              JIRA.name f = c.
Proof.
  apply (run_columns a_then_b "project = DEMO" ["a"; "b"] 100
           _ _ eq_refl eq_refl a_then_b_df a_then_b_groupby_dfs).
  reflexivity.
Defined.

Lemma run_missing_cell_witness :
  pd.column a_then_b_df "B" !! 0 = Some None /\ pd.isna None = true.
Proof.
  apply (run_missing_cell a_then_b "project = DEMO" ["a"; "b"] 100
           _ _ eq_refl eq_refl a_then_b_df a_then_b_groupby_dfs 0
           {| JIRA.issue_fields := [("a", Str "x")] |} "B").
  - reflexivity.
  - reflexivity.
  - intros k v f [= -> ->]%list_elem_of_singleton Hf.
    vm_compute in Hf. injection Hf as <-. discriminate.
Defined.

Lemma groupby_count_bounds_witness :
  exists z, Int 2 = Int z /\
            (1 <= z <= Z.of_nat (length (pd.rows priorities)))%Z.
Proof.
  apply (groupby_count_bounds priorities "Priority" "Count"
           priorities_counted (Str "High") (Int 2)).
  - reflexivity.
  - apply list_elem_of_here.
Defined.

Lemma groupby_count_all_missing_witness :
  generate_groupby_count_dataframe
    (pd.DataFrame_ [[("Assignee", None_)]; [("Assignee", None_)]])
    "Assignee" "Count"
  = Ok {| pd.columns := ["Assignee"; "Count"]; pd.rows := [] |}.
Proof.
  apply groupby_count_all_missing.
  - apply list_elem_of_here.
  - discriminate.
  - repeat constructor.
Defined.

Lemma groupby_count_row_order_witness :
  exists g',
    generate_groupby_count_dataframe
      {| pd.columns := ["Priority"];
         pd.rows := [[("Priority", Str "Low")]; [("Priority", Str "High")];
                     [("Priority", Str "High")]] |}
      "Priority" "Count" = Ok g' /\
    map (fun p => (pd.cell_key (Some p.1), p.2)) (pd.pairs priorities_counted)
    ≡ₚ map (fun p => (pd.cell_key (Some p.1), p.2)) (pd.pairs g').
Proof.
  apply (groupby_count_row_order priorities).
  - cbn. apply Permutation_sym.
    apply (Permutation_cons_append
             [[("Priority", Str "High")]; [("Priority", Str "High")]]).
  - reflexivity.
  - reflexivity.
Defined.

Lemma run_raises_witness :
  unknown_field_id
    (fields_by_id [ {| JIRA.id := "status"; JIRA.name := "Status" |} ])
    [ {| JIRA.issue_fields :=
           [("status", Dict [("name", Str "Open")]);
            ("customfield_10010", Str "gold")] |} ]
    (KeyError "customfield_10010") \/
  extraction_error
    [ {| JIRA.issue_fields :=
           [("status", Dict [("name", Str "Open")]);
            ("customfield_10010", Str "gold")] |} ]
    (KeyError "customfield_10010") \/
  (exists v, KeyError "customfield_10010" = UnhashableType v /\
             (type v = list_ \/ type v = dict_)) \/
  KeyError "customfield_10010" = CannotInsert "Count".
Proof.
  apply (run_raises stale_catalog "project = DEMO"
           ["status"; "customfield_10010"] 100 _ _ eq_refl eq_refl).
  reflexivity.
Defined.

Lemma run_returns_witness :
  exists df g,
    generate_dataframes_by_jql two_issues "project = DEMO"
      ["status"; "assignee"] 100 = Ok (df, g).
Proof.
  apply (run_returns two_issues "project = DEMO" ["status"; "assignee"] 100
           _ _ eq_refl eq_refl).
  intros issue k v Hi Hkv.
  repeat (apply elem_of_cons in Hi as [->|Hi]); [| |inversion Hi];
    cbn in Hkv;
    repeat (apply elem_of_cons in Hkv as [[= -> ->]|Hkv]);
    try (now inversion Hkv);
    eexists _, _;
    (split; [vm_compute; reflexivity|]);
    (split; [discriminate|]); split; reflexivity.
Defined.

Lemma run_returned_witness :
  ("Count" ∉ pd.columns two_issues_df) /\
  (forall c, c ∈ pd.columns two_issues_df ->
     Forall (fun cell => pd.hashable cell = true)
            (pd.column two_issues_df c)) /\
  (forall issue k v,
     issue ∈ [ {| JIRA.issue_fields :=
                    [("status", Dict [("name", Str "Open")]);
                     ("assignee", Dict [("name", Str "Alice")])] |};
               {| JIRA.issue_fields :=
                    [("status", Dict [("name", Str "Open")]);
                     ("assignee", None_)] |} ] ->
     (k, v) ∈ JIRA.issue_fields issue ->
     is_Some (fields_by_id
                [ {| JIRA.id := "status"; JIRA.name := "Status" |};
                  {| JIRA.id := "assignee"; JIRA.name := "Assignee" |} ]
              !! k) /\
     is_ok (extract_value v) = true).
Proof.
  apply (run_returned two_issues "project = DEMO" ["status"; "assignee"] 100
           _ _ eq_refl eq_refl two_issues_df two_issues_groupby_dfs).
  reflexivity.
Defined.

End Samples.

(** * Properties of [generate_chart_figure] *)

Section Chart.

Variable Figure : Type.
Variable px_ : px.module_ Figure.

Implicit Types (df g : pd.DataFrame) (kwargs : dict) (k : string).

Lemma dict_lookup_elem (d : dict) k (v : value) :
  dict_lookup d k = Some v -> (k, v) ∈ d.
Proof.
  induction d as [|[k' v'] d IH]; cbn; [discriminate|].
  destruct (String.eqb_spec k k') as [->|_].
  - intros [= ->]. left.
  - intros H. right. auto.
Qed.

Lemma repeated_keyword_Some kwargs k (v : value) :
  (k, v) ∈ kwargs -> k ∈ ["data_frame"; "title"; "color"] ->
  exists keyword, repeated_keyword kwargs = Some keyword /\
                  keyword ∈ ["data_frame"; "title"; "color"] /\
                  keyword ∈ dict_keys kwargs.
Proof.
  intros Hin Hk. unfold repeated_keyword.
  destruct (List.find _ kwargs) as [[kw w]|] eqn:E.
  - apply List.find_some in E as [Hkw Hp]. cbn in Hp.
    apply bool_decide_eq_true_1 in Hp.
    exists kw. repeat split; [assumption|].
    unfold dict_keys. apply list_elem_of_fmap. exists (kw, w).
    split; [reflexivity | now apply list_elem_of_In].
  - apply list_elem_of_In in Hin.
    pose proof (List.find_none _ _ E (k, v) Hin) as Hp.
    cbn in Hp. apply bool_decide_eq_false_1 in Hp. contradiction.
Qed.

(** X21. The chart of a frame that [generate_groupby_count_dataframe]
    returned is coloured by the grouped column: when the chart type is listed,
    is a plotting function of [px] and [kwargs] names none of the keywords
    of the call, the function is called on that frame with [color] the
    grouped column, and its answer is the answer of the method. *)
Theorem chart_of_groupby_count df (groupby count_column_name : string) g
    (chart_type : string) (chart_title : option string) kwargs
    (f : px.call -> px.error + Figure) :
  generate_groupby_count_dataframe df groupby count_column_name = Ok g ->
  chart_type ∈ px.chart_types px_ ->
  px.getattr px_ chart_type = Some (px.Function f) ->
  repeated_keyword kwargs = None ->
  generate_chart_figure px_ g chart_type chart_title kwargs
  = f {| px.data_frame := g; px.title := chart_title;
         px.color := groupby; px.kwargs := kwargs |}.
Proof.
  intros (_ & _ & ->)%generate_groupby_count_dataframe_Ok Htype Hattr Hkw.
  unfold generate_chart_figure.
  rewrite bool_decide_eq_true_2 by assumption.
  now rewrite Hattr, Hkw.
Qed.

(** X22. The frame of a run that found no issue cannot be charted: for a
    chart type that is listed and is an attribute of [px], the method raises
    the [IndexError] of [df.columns[0]] and calls nothing. *)
Theorem chart_of_empty_batch (self : JiraReport) (jql : string)
    (fields : list string) (jql_search_limit : Z) (fs : list JIRA.field)
    df (groupby_dfs : gmap string pd.DataFrame)
    (chart_type : string) (chart_title : option string) kwargs :
  JIRA.fields (jira_api self) = Ok fs ->
  JIRA.search_issues (jira_api self) jql fields jql_search_limit = Ok [] ->
  generate_dataframes_by_jql self jql fields jql_search_limit
  = Ok (df, groupby_dfs) ->
  chart_type ∈ px.chart_types px_ ->
  is_Some (px.getattr px_ chart_type) ->
  generate_chart_figure px_ df chart_type chart_title kwargs
  = inl px.IndexError.
Proof.
  intros Hfs Hsearch Hrun Htype [func Hattr].
  unfold generate_dataframes_by_jql in Hrun.
  rewrite Hfs in Hrun. cbn [bind] in Hrun. rewrite Hsearch in Hrun.
  injection Hrun as <- _.
  unfold generate_chart_figure.
  rewrite bool_decide_eq_true_2 by assumption. now rewrite Hattr.
Qed.

(** X23. The caller cannot pass [data_frame], [title] or [color] through
    [kwargs]: on a frame with a column, for a chart type that is listed and
    is an attribute of [px], such a key makes the method raise the
    [TypeError] of a keyword given twice, for a key of [kwargs] among the
    three, and nothing is plotted. *)
Theorem chart_keyword_twice df (chart_type : string)
    (chart_title : option string) kwargs k (v : value) :
  chart_type ∈ px.chart_types px_ ->
  is_Some (px.getattr px_ chart_type) ->
  pd.columns df <> [] ->
  k ∈ ["data_frame"; "title"; "color"] ->
  dict_lookup kwargs k = Some v ->
  exists keyword,
    generate_chart_figure px_ df chart_type chart_title kwargs
    = inl (px.MultipleValues keyword) /\
    keyword ∈ ["data_frame"; "title"; "color"] /\
    keyword ∈ dict_keys kwargs.
Proof.
  intros Htype [func Hattr] Hcols Hk Hv%dict_lookup_elem.
  destruct (repeated_keyword_Some _ _ _ Hv Hk) as (kw & Hkw & H3 & Hin).
  exists kw. split; [|auto].
  unfold generate_chart_figure.
  rewrite bool_decide_eq_true_2 by assumption. rewrite Hattr.
  destruct (pd.columns df); [contradiction|]. now rewrite Hkw.
Qed.

End Chart.

Section ChartSamples.

Lemma chart_of_groupby_count_witness :
  generate_chart_figure sample_px priorities_counted "bar" (Some "By priority")
    [("x", Str "Priority"); ("y", Str "Count")]
  = inr "Priority".
Proof.
  apply (chart_of_groupby_count string sample_px priorities "Priority" "Count"
           priorities_counted "bar" (Some "By priority")
           [("x", Str "Priority"); ("y", Str "Count")]
           (fun c => inr (px.color c))).
  - reflexivity.
  - apply list_elem_of_here.
  - reflexivity.
  - reflexivity.
Defined.

Lemma chart_of_empty_batch_witness :
  generate_chart_figure sample_px {| pd.columns := []; pd.rows := [] |}
    "bar" None []
  = inl px.IndexError.
Proof.
  apply (chart_of_empty_batch string sample_px no_issues "project = DEMO"
           ["status"] 100 tier_catalog
           {| pd.columns := []; pd.rows := [] |} ∅ "bar" None []).
  - reflexivity.
  - reflexivity.
  - reflexivity.
  - apply list_elem_of_here.
  - now exists (px.Function (fun c => inr (px.color c))).
Defined.

Lemma chart_keyword_twice_witness :
  exists keyword,
    generate_chart_figure sample_px priorities_counted "bar" None
      [("x", Str "Priority"); ("color", Str "Count")]
    = inl (px.MultipleValues keyword) /\
    keyword ∈ ["data_frame"; "title"; "color"] /\
    keyword ∈ dict_keys [("x", Str "Priority"); ("color", Str "Count")].
Proof.
  apply (chart_keyword_twice string sample_px priorities_counted "bar" None
           [("x", Str "Priority"); ("color", Str "Count")]
           "color" (Str "Count")).
  - apply list_elem_of_here.
  - now exists (px.Function (fun c => inr (px.color c))).
  - discriminate.
  - apply list_elem_of_further, list_elem_of_further, list_elem_of_here.
  - reflexivity.
Defined.

End ChartSamples.
